(** * AI-Terminal: the provider-fallback core of [ai_helper.py]

    A shallow embedding of [TerminalAI._start_spinner] and
    [TerminalAI._generate_with_fallback], with the facts the specification
    states about them, followed by the construction of the instance, the
    public methods, [execute_and_analyze] and [main].

    Conventions of the embedding.
    - Time is the reading of [time.monotonic()], kept in whole milliseconds.
      The delays of the source (0.5, 1.0, 2.0, 7.0 seconds) are exact binary
      floats, and so is their doubling, so they are written 500, 1000, 2000
      and 7000. The durations the source computes from two readings are
      computed as the source does, in binary64 arithmetic ([elapsed_ms]).
    - The remote services are an environment ([remote]): for each request it
      says how long the request runs and whether it returns or raises.
    - Everything the function does that can be observed from outside (spinner
      started, stop event set, request sent, sleep, blocking wait) is appended
      to a log of [event]s.
    - A text a provider hands back is a string or Python's [None]
      ([option string]), and so is what the public methods return.
    - What the program prints is a list of [output]s. A write through [rich]
      can raise; which texts make it raise is left to the [runtime], except
      for the shapes of markup that are known to be accepted. *)

From stdpp Require Import gmap strings list pretty.
From Stdlib Require Import NArith ZArith Lia SpecFloat.

Open Scope string_scope.

(** ** Python values and exceptions *)

(** The values stored in the [last_status] dict. *)
Inductive pyval :=
| VStr (s : string)
| VInt (n : Z).

#[export] Instance pyval_eq_dec : EqDecision pyval.
Proof. solve_decision. Defined.

(** The exception classes the function tells apart. *)
Inductive exc_class :=
| RuntimeError
| FuturesTimeoutError       (* concurrent.futures.TimeoutError *)
| OtherException.           (* any other subclass of Exception *)

#[export] Instance exc_class_eq_dec : EqDecision exc_class.
Proof. solve_decision. Defined.

(** An exception object: its class and [str(exc)]. *)
Record exn := Exn { exn_class : exc_class; exn_str : string }.

(** ** The remote services *)

(** The object returned by [client.models.generate_content]: the source reads
    it with [getattr(resp, "text", str(resp))]. [text_attr] is [None] when the
    object has no attribute [text] and [Some v] when it has one with value
    [v]; the value is a string, or Python's [None] (written [None] here too).
    [resp_str] is [str(resp)]. *)
Record response := Response { text_attr : option (option string); resp_str : string }.

(** One remote request: how long it runs (ms) and how it ends. *)
Record call (A : Type) := Call { took : N; outcome : A + exn }.
Arguments Call {A} _ _.
Arguments took {A} _.
Arguments outcome {A} _.

(** The environment. [chat_completions_create k prompt] is the [k]-th request
    ([k] = 0, 1, 2) that one run of the retry loop sends to OpenAI; its result
    is already [resp.choices[0].message.content], a string or Python's [None],
    so a malformed answer counts as a raise, as it does inside the [try] of
    the source. *)
Record remote := Remote {
  chat_completions_create : nat → string → call (option string);
  models_generate_content : string → call response
}.

(** ** The instance *)

(** Client objects only carry the credential they were built with. *)
Record OpenAI := { openai_api_key : string }.
Record GenaiClient := { genai_api_key : string }.

Record TerminalAI := {
  openai_client : option OpenAI;
  client : option GenaiClient;
  last_status : option (gmap string pyval)
}.

(** [TerminalAI.__init__], as far as the three fields go. *)
Definition TerminalAI_init (oc : option OpenAI) (gc : option GenaiClient) : TerminalAI :=
  {| openai_client := oc; client := gc; last_status := None |}.

(** ** Observable events and the machine state *)

Inductive event :=
| SpinnerStart (h : nat) (phases : list string) (interval : N)
| SpinnerStop (h : nat)                 (* stop_event.set() on handle h *)
| OpenAIRequest (k : nat) (prompt : string)
| GeminiSubmit (prompt : string)        (* pool.submit(generate_content, ...) *)
| Sleep (ms : N)                        (* time.sleep *)
| FutureWait (ms : N)                   (* time blocked in fut.result(timeout=...) *)
| PoolShutdown (ms : N).                (* time blocked leaving the with block *)

Record machine := Machine {
  self : TerminalAI;
  net : remote;
  monotonic : N;
  events : list event;
  handles : nat
}.

Definition set_self (f : TerminalAI → TerminalAI) (m : machine) : machine :=
  Machine (f (self m)) (net m) (monotonic m) (events m) (handles m).

Definition set_net (r : remote) (m : machine) : machine :=
  Machine (self m) r (monotonic m) (events m) (handles m).

Definition advance (d : N) (m : machine) : machine :=
  Machine (self m) (net m) (monotonic m + d)%N (events m) (handles m).

Definition log (e : event) (m : machine) : machine :=
  Machine (self m) (net m) (monotonic m) (events m ++ [e]) (handles m).

Definition fresh_handle (m : machine) : machine :=
  Machine (self m) (net m) (monotonic m) (events m) (S (handles m)).

(** ** A state-and-exception monad for the method bodies *)

Inductive res (A : Type) :=
| Ret (a : A)
| Raise (e : exn).
Arguments Ret {A} _.
Arguments Raise {A} _.

Definition M (A : Type) : Type := machine → res A * machine.

Definition ret {A} (a : A) : M A := fun m => (Ret a, m).

Definition raise {A} (e : exn) : M A := fun m => (Raise e, m).

Definition bind {A B} (c : M A) (k : A → M B) : M B :=
  fun m => match c m with
           | (Ret a, m') => k a m'
           | (Raise e, m') => (Raise e, m')
           end.

Declare Scope py_scope.
Delimit Scope py_scope with py.
Notation "'let*' x ':=' c 'in' k" := (bind c (fun x => k))
  (at level 10, x name, c at level 100, k at level 200) : py_scope.

Definition get {A} (f : machine → A) : M A := fun m => (Ret (f m), m).

Definition modify (f : machine → machine) : M unit := fun m => (Ret tt, f m).

(** [try: body  except E1: h E1 ...]: the handler sees the exception. *)
Definition try_except {A} (body : M A) (handler : exn → M A) : M A :=
  fun m => match body m with
           | (Ret a, m') => (Ret a, m')
           | (Raise e, m') => handler e m'
           end.

(** [with cm: body]: [exit] runs on the way out, whether [body] returned or
    raised, and the result of [body] is passed on. *)
Definition with_exit {A} (body : M A) (exit : M unit) : M A :=
  fun m => match body m with
           | (r, m') => (r, snd (exit m'))
           end.

(** ** Durations computed from the clock *)

(** The nearest binary64 number to an integer. *)
Definition float64_of_Z (z : Z) : spec_float := binary_normalize 53 1024 z 0 false.

(** The float [time.monotonic()] returns at a clock value of [ms]
    milliseconds: the binary64 number nearest to [ms / 1000] seconds. *)
Definition monotonic_reading (ms : N) : spec_float :=
  SFdiv 53 1024 (float64_of_Z (Z.of_N ms)) (float64_of_Z 1000).

(** [int(x)] on a float: truncation towards zero. Readings of the clock are
    finite and so are the products formed from them; the other cases are
    only there to make the function total. *)
Definition py_int (x : spec_float) : Z :=
  match x with
  | S754_finite s m e =>
      let v := if (0 <=? e)%Z then (Zpos m * 2 ^ e)%Z else (Zpos m / 2 ^ (- e))%Z in
      if s then (- v)%Z else v
  | _ => 0%Z
  end.

(** [int((time.monotonic() - start) * 1000)], for a clock that read [start]
    then and reads [now]: subtraction and product are those of binary64, so
    the result can be one less than the number of milliseconds between the
    two readings. *)
Definition elapsed_ms (start now : N) : Z :=
  py_int (SFmul 53 1024
            (SFsub 53 1024 (monotonic_reading now) (monotonic_reading start))
            (float64_of_Z 1000)).
Arguments elapsed_ms : simpl never.

(** ** The progress indicator: [_start_spinner] *)

Definition CR : string := String (Ascii.ascii_of_nat 13) "".

Fixpoint spaces (n : nat) : string :=
  match n with
  | O => ""
  | S n' => " " +:+ spaces n'
  end.

Definition dots : list string := ["."; ".."; "..."].

(** The body of the [while] loop of [_spin], at loop counter [i]:
    [phase = phases[(i // 3) % len(phases)]]. An empty [phases] makes
    [% len(phases)] divide by zero, which ends the thread: [None]. *)
Definition _spin_phase (phases : list string) (i : nat) : option string :=
  if decide (length phases = 0) then None
  else phases !! ((i / 3) `mod` length phases).

(** [msg = f"{phase} {dots[i % 3]}"]. *)
Definition _spin_msg (phases : list string) (i : nat) : option string :=
  match _spin_phase phases i, dots !! (i `mod` 3) with
  | Some phase, Some d => Some (phase +:+ " " +:+ d)
  | _, _ => None
  end.

(** What that pass writes to stdout: ["\r" + msg + " " * 10]. *)
Definition _spin_write (phases : list string) (i : nat) : option string :=
  (fun msg => CR +:+ msg +:+ spaces 10) <$> _spin_msg phases i.

(** The write after the loop: ["\r" + " " * 80 + "\r"]. *)
Definition _spin_clear : string := CR +:+ spaces 80 +:+ CR.

(** The whole output of the thread when the stop event is seen set after
    [ticks] passes: one write per pass, then the clearing write. With an
    empty [phases] the first pass dies of the division by zero, which nothing
    catches, and the thread ends without having written anything; only a
    thread that is stopped before its first pass gets to the clearing
    write. *)
Definition _spin (phases : list string) (ticks : nat) : list string :=
  match phases, ticks with
  | [], S _ => []
  | _, _ => omap (_spin_write phases) (seq 0 ticks) ++ [_spin_clear]
  end.

(** [_start_spinner]: a new [threading.Event] is made, the thread is started,
    and the event is returned. *)
Definition _start_spinner (phases : list string) (interval : N) : M nat :=
  fun m =>
    let h := handles m in
    (Ret h, log (SpinnerStart h phases interval) (fresh_handle m)).

(** [stop_event.set()]. *)
Definition Event_set (h : nat) : M unit := modify (log (SpinnerStop h)).

(** [time.sleep(d)]. *)
Definition time_sleep (d : N) : M unit :=
  modify (fun m => advance d (log (Sleep d) m)).

Definition default_phases : list string := ["Thinking"; "Analysing"].

(** ** The orchestrator: [_generate_with_fallback] *)

Definition GEMINI_MODEL : string := "gemini-2.5-flash".

(** [self.last_status = st]. *)
Definition set_last_status (st : option (gmap string pyval)) : M unit :=
  modify (set_self (fun s =>
    {| openai_client := openai_client s; client := client s; last_status := st |})).

(** Truth value of [self.last_status]: [None] and the empty dict are false. *)
Definition truthy (st : option (gmap string pyval)) : bool :=
  match st with
  | None => false
  | Some d => negb (bool_decide (d = ∅))
  end.

(** [self.last_status[k] = v]; only run when [self.last_status] is true, so
    there is a dict to write to. *)
Definition dict_setitem (k : string) (v : pyval) (st : option (gmap string pyval))
    : option (gmap string pyval) :=
  (fun d => <[k := v]> d) <$> st.

(** [str(last_exc)]. *)
Definition str_exc (last_exc : option exn) : string :=
  match last_exc with
  | Some e => exn_str e
  | None => "None"
  end.

(** [self.openai_client.chat.completions.create(...)] followed by
    [resp.choices[0].message.content]: the caller is blocked while the request
    runs. *)
Definition openai_create (k : nat) (prompt : string) : M (option string) :=
  fun m =>
    let c := chat_completions_create (net m) k prompt in
    let m' := advance (took c) (log (OpenAIRequest k prompt) m) in
    match outcome c with
    | inl text => (Ret text, m')
    | inr exc => (Raise exc, m')
    end.

(** The body of [for _ in range(3)], with [n] passes left; [k] counts the
    passes done, [delay] and [last_exc] are the local variables of the source.
    [inl text] is the [return text] inside the loop, [inr last_exc] is the
    loop running out. *)
Fixpoint openai_loop (prompt : string) (start_openai : N) (spinner_stop : nat)
    (n k : nat) (delay : N) (last_exc : option exn)
    : M (option string + option exn) :=
  match n with
  | O => ret (inr last_exc)
  | S n' =>
      (let* r :=
         try_except
           (let* text := openai_create k prompt in
            let* t := get monotonic in
            let duration_ms := elapsed_ms start_openai t in
            let* _ := Event_set spinner_stop in
            let* _ := set_last_status
                        (Some {[ "provider" := VStr "openai";
                                 "reason" := VStr "ok";
                                 "duration_ms" := VInt duration_ms ]}) in
            ret (inl text))
           (fun exc =>
              let* _ := time_sleep delay in
              ret (inr exc)) in
       match r with
       | inl text => ret (inl text)
       | inr exc =>
           openai_loop prompt start_openai spinner_stop n' (S k) (delay * 2) (Some exc)
       end)%py
  end.

(** A [concurrent.futures.Future] for a submitted request: when it was
    submitted and what the request will do. *)
Record future := Future { submitted : N; job : call response }.

(** The time the worker thread still needs at machine state [m]. *)
Definition remaining (fut : future) (m : machine) : N :=
  (submitted fut + took (job fut) - monotonic m)%N.

(** [pool.submit(self.client.models.generate_content, model=..., contents=prompt)]:
    the request starts in the worker thread, the caller goes on at once. *)
Definition pool_submit (prompt : string) : M future :=
  fun m =>
    (Ret (Future (monotonic m) (models_generate_content (net m) prompt)),
     log (GeminiSubmit prompt) m).

(** [fut.result(timeout=t)]: blocks until the request is done or [t] has
    passed; a finished request hands over its value or re-raises its
    exception, an unfinished one raises [concurrent.futures.TimeoutError].
    A request that is done exactly when [t] has passed counts as done. *)
Definition fut_result (fut : future) (timeout : N) : M response :=
  fun m =>
    let r := remaining fut m in
    if (r <=? timeout)%N then
      let m' := advance r (log (FutureWait r) m) in
      match outcome (job fut) with
      | inl resp => (Ret resp, m')
      | inr exc => (Raise exc, m')
      end
    else
      (Raise (Exn FuturesTimeoutError ""),
       advance timeout (log (FutureWait timeout) m)).

(** Leaving [with concurrent.futures.ThreadPoolExecutor(...) as pool]:
    [Executor.__exit__] calls [shutdown(wait=True)], which joins the worker
    thread, so the caller is blocked until the submitted request is done. *)
Definition pool_exit (fut : future) : M unit :=
  fun m =>
    let r := remaining fut m in
    (Ret tt, advance r (log (PoolShutdown r) m)).

(** [getattr(resp, "text", str(resp))]: the value of the attribute when there
    is one, be it a string or [None], and [str(resp)] when there is none. *)
Definition getattr_text (resp : response) : option string :=
  match text_attr resp with
  | Some v => v
  | None => Some (resp_str resp)
  end.

Definition no_client_msg : string :=
  "No AI client is available (both OpenAI and Gemini failed).".
Definition timeout_msg : string :=
  "Gemini fallback timed out after 7 seconds".
Definition failed_msg (e : exn) : string :=
  "Gemini fallback failed: " +:+ exn_str e.

(** The first [if] of the function: [Some text] when it returned [text] from
    inside the retry loop, [None] when control goes on to the Gemini part. *)
Definition openai_part (prompt : string) : M (option (option string)) :=
  (let* oc := get (fun m => openai_client (self m)) in
   match oc with
   | Some _ =>
       let delay := 500%N in
       let last_exc := @None exn in
       let* start_openai := get monotonic in
       let* spinner_stop := _start_spinner default_phases 500 in
       let* r := openai_loop prompt start_openai spinner_stop 3 0 delay last_exc in
       match r with
       | inl text => ret (Some text)
       | inr last_exc =>
           let* _ := Event_set spinner_stop in
           let* _ := set_last_status
                       (Some {[ "provider" := VStr "gemini";
                                "reason" := VStr "openai_failed";
                                "error" := VStr (str_exc last_exc) ]}) in
           ret None
       end
   | None => ret None
   end)%py.

(** The rest of the function, from [if self.client is None]. *)
Definition gemini_part (prompt : string) : M (option string) :=
  (let* gc := get (fun m => client (self m)) in
   match gc with
   | None => raise (Exn RuntimeError no_client_msg)
   | Some _ =>
       let* start := get monotonic in
       let* spinner_stop := _start_spinner default_phases 500 in
       let* fut := pool_submit prompt in
       with_exit
         (try_except
            (let* resp := fut_result fut 7000 in
             let* _ := Event_set spinner_stop in
             let* t := get monotonic in
             let duration_ms := elapsed_ms start t in
             let* st := get (fun m => last_status (self m)) in
             let* _ :=
               if negb (truthy st)
               then set_last_status
                      (Some {[ "provider" := VStr "gemini";
                               "reason" := VStr "ok";
                               "duration_ms" := VInt duration_ms ]})
               else set_last_status (dict_setitem "duration_ms" (VInt duration_ms) st) in
             ret (getattr_text resp))
            (fun e =>
               match exn_class e with
               | FuturesTimeoutError =>
                   let* _ := Event_set spinner_stop in
                   raise (Exn RuntimeError timeout_msg)
               | _ =>
                   let* _ := Event_set spinner_stop in
                   raise (Exn RuntimeError (failed_msg e))
               end))
         (pool_exit fut)
   end)%py.

(** The value returned is what the provider gave as its text: a string, or
    [None] when that was Python's [None]. *)
Definition _generate_with_fallback (prompt : string) : M (option string) :=
  (let* early := openai_part prompt in
   match early with
   | Some text => ret text
   | None => gemini_part prompt
   end)%py.

(** A machine at time [t] with nothing logged yet. *)
Definition boot (ai : TerminalAI) (r : remote) (t : N) : machine :=
  Machine ai r t [] 0.

(** ** Reading the log *)

Definition sleeps (evs : list event) : list N :=
  omap (fun e => match e with Sleep d => Some d | _ => None end) evs.

Definition openai_requests (evs : list event) : list nat :=
  omap (fun e => match e with OpenAIRequest k _ => Some k | _ => None end) evs.

Definition gemini_requests (evs : list event) : list string :=
  omap (fun e => match e with GeminiSubmit p => Some p | _ => None end) evs.

Definition started (evs : list event) : list nat :=
  omap (fun e => match e with SpinnerStart h _ _ => Some h | _ => None end) evs.


(** Time the caller spent inside a call that took the machine from [m] to [m']. *)
Definition elapsed (m m' : machine) : N := (monotonic m' - monotonic m)%N.

(** ** Vocabulary of the statements *)

(** The status written by a Gemini answer for which the duration [d] was
    computed, over the status [st] found there. *)
Definition gemini_status (st : option (gmap string pyval)) (d : Z)
    : option (gmap string pyval) :=
  if negb (truthy st)
  then Some {[ "provider" := VStr "gemini"; "reason" := VStr "ok";
               "duration_ms" := VInt d ]}
  else dict_setitem "duration_ms" (VInt d) st.

Definition with_status (s : TerminalAI) (st : option (gmap string pyval)) : TerminalAI :=
  {| openai_client := openai_client s; client := client s; last_status := st |}.

Definition openai_ok_status (d : Z) : gmap string pyval :=
  {[ "provider" := VStr "openai"; "reason" := VStr "ok";
     "duration_ms" := VInt d ]}.

Definition openai_failed_status (e : exn) : gmap string pyval :=
  {[ "provider" := VStr "gemini"; "reason" := VStr "openai_failed";
     "error" := VStr (exn_str e) ]}.

(** All three requests of the retry loop raise. *)
Definition primary_exhausted (r : remote) (prompt : string) : Prop :=
  ∀ k, k < 3 → ∃ e, outcome (chat_completions_create r k prompt) = inr e.

(** One of the three requests of the retry loop would return. *)
Definition primary_succeeds (r : remote) (prompt : string) : Prop :=
  ∃ k text, k < 3 ∧ outcome (chat_completions_create r k prompt) = inl text.

(** Control reaches the Gemini part: OpenAI is not configured, or its three
    requests all raised. *)
Definition falls_through (ai : TerminalAI) (r : remote) (prompt : string) : Prop :=
  openai_client ai = None ∨ primary_exhausted r prompt.

(** Sample clients and remote behaviours, for the concrete runs below. *)
Definition openai_key : OpenAI := {| openai_api_key := "sk-test" |}.
Definition gemini_key : GenaiClient := {| genai_api_key := "g-test" |}.

Definition rate_limited : exn := Exn OtherException "429 rate limited".

(** OpenAI raises on every request (each after 100 ms); Gemini answers "pong"
    after [d] ms. *)
Definition openai_down (d : N) : remote :=
  Remote (fun _ _ => Call 100 (inr rate_limited))
         (fun _ => Call d (inl (Response (Some (Some "pong")) "<response>"))).

(** OpenAI raises on its first [f] requests and answers "pong" afterwards. *)
Definition openai_flaky (f : nat) : remote :=
  Remote (fun k _ => Call 100 (if (k <? f)%nat then inr rate_limited else inl (Some "pong")))
         (fun _ => Call 100 (inl (Response (Some (Some "gemini pong")) "<response>"))).

(** Gemini raises [e] after [d] ms. *)
Definition gemini_raises (d : N) (e : exn) : remote :=
  Remote (fun _ _ => Call 100 (inr rate_limited)) (fun _ => Call d (inr e)).

(** [self.last_status.get(k)] after a run (nothing when there is no dict). *)
Definition status_get (m : machine) (k : string) : option pyval :=
  match last_status (self m) with
  | Some d => d !! k
  | None => None
  end.


(** The instances the code itself can produce: built by [__init__], then
    used for any number of calls, each at its own time and against its own
    behaviour of the remote services. *)
Inductive reachable : TerminalAI → Prop :=
| reachable_init oc gc : reachable (TerminalAI_init oc gc)
| reachable_call ai r t prompt :
    reachable ai →
    reachable (self (snd (_generate_with_fallback prompt (boot ai r t)))).

(** In a status dict, reason "openai_failed" goes with provider "gemini". *)
Definition status_consistent (st : option (gmap string pyval)) : Prop :=
  ∀ d, st = Some d →
       d !! "reason" = Some (VStr "openai_failed") →
       d !! "provider" = Some (VStr "gemini").

(** The instance left behind by a first call that Gemini answered in 12 ms. *)
Definition used_once : TerminalAI :=
  self (snd (_generate_with_fallback "pwd"
               (boot (TerminalAI_init None (Some gemini_key)) (openai_down 12) 0))).

(** The ellipsis of [k + 1] dots. *)
Fixpoint ellipsis (k : nat) : string :=
  match k with
  | O => "."
  | S k' => "." +:+ ellipsis k'
  end.

(** ** The host the program runs on *)

(** Environment variables and the results of the calls into the operating
    system and into the client libraries. [uname_a] is the value of
    [subprocess.run(['uname', '-a'], ...).stdout.strip()]. *)
Record host := Host {
  environ : gmap string string;
  getcwd : string + exn;
  uname_a : string + exn;
  openai_installed : bool;              (* [OpenAI is not None]: the import worked *)
  openai_ctor_raises : string → bool;   (* [OpenAI(api_key=k)] raises *)
  genai_ctor_raises : string → bool     (* [genai.Client(api_key=k)] raises *)
}.

(** Truth value of an optional string: [None] and [""] are false. *)
Definition str_truthy (a : option string) : bool :=
  match a with
  | Some s => negb (bool_decide (s = ""))
  | None => false
  end.

(** [a or b] on optional strings. *)
Definition py_or (a b : option string) : option string :=
  if str_truthy a then a else b.

(** [os.environ.get("GEMINI_API_KEY") or os.environ.get("GOOGLE_API_KEY") or ""]. *)
Definition GEMINI_API_KEY (h : host) : string :=
  default ""
    (py_or (py_or (environ h !! "GEMINI_API_KEY") (environ h !! "GOOGLE_API_KEY"))
           (Some "")).

(** The module-level [client]: built only for a non-empty key, [None] when
    the constructor raises. *)
Definition module_client (h : host) : option GenaiClient :=
  if str_truthy (Some (GEMINI_API_KEY h)) then
    if genai_ctor_raises h (GEMINI_API_KEY h) then None
    else Some {| genai_api_key := GEMINI_API_KEY h |}
  else None.

(** The [openai_client] that [__init__] builds. *)
Definition init_openai_client (h : host) : option OpenAI :=
  if openai_installed h then
    let api_key := environ h !! "OPENAI_API_KEY" in
    if negb (str_truthy api_key) then None
    else
      match api_key with
      | Some k => if openai_ctor_raises h k then None
                  else Some {| openai_api_key := k |}
      | None => None
      end
  else None.

(** [_get_system_context]: the four entries, or the empty dict as soon as
    one of the calls raises. *)
Definition _get_system_context (h : host) : gmap string string :=
  match getcwd h with
  | inr _ => ∅
  | inl cwd =>
      let shell := default "unknown" (environ h !! "SHELL") in
      match uname_a h with
      | inr _ => ∅
      | inl os_info =>
          let user := default "unknown" (environ h !! "USER") in
          {[ "cwd" := cwd; "shell" := shell; "os" := os_info; "user" := user ]}
      end
  end.

(** [TerminalAI()]: the instance, and its [context] attribute, which is
    written here and only read afterwards. *)
Definition TerminalAI_new (h : host) : TerminalAI * gmap string string :=
  (TerminalAI_init (init_openai_client h) (module_client h), _get_system_context h).

(** ** The public methods *)

Definition LF : string := String (Ascii.ascii_of_nat 10) "".
Definition DQ : string := String (Ascii.ascii_of_nat 34) "".

(** [self.context.get(k, 'unknown')]. *)
Definition context_get (context : gmap string string) (k : string) : string :=
  default "unknown" (context !! k).

(** The prompt of [ask_question]. *)
Definition ask_prompt (context : gmap string string) (question : string) : string :=
  "You are an expert terminal and development assistant. The user is asking: " +:+ DQ +:+ question +:+ DQ +:+ LF +:+
  LF +:+
  "Current context:" +:+ LF +:+
  "- Working directory: " +:+ context_get context "cwd" +:+ LF +:+
  "- Shell: " +:+ context_get context "shell" +:+ LF +:+
  "- OS: " +:+ context_get context "os" +:+ LF +:+
  "- User: " +:+ context_get context "user" +:+ LF +:+
  LF +:+
  "Please respond using clean Markdown with concise headings (##/###), bullet lists, and fenced bash code blocks for commands (```bash). Keep it skimmable and practical with executable steps for macOS.".

(** The prompt of [debug_issue]. *)
Definition debug_prompt (context : gmap string string) (error_output : string) : string :=
  "You are an expert system administrator and debugger. The user encountered this terminal error or issue:" +:+ LF +:+
  LF +:+
  "ERROR/ISSUE:" +:+ LF +:+
  error_output +:+ LF +:+
  LF +:+
  "Current system context:" +:+ LF +:+
  "- Working directory: " +:+ context_get context "cwd" +:+ LF +:+
  "- Shell: " +:+ context_get context "shell" +:+ LF +:+
  "- OS: " +:+ context_get context "os" +:+ LF +:+
  "- User: " +:+ context_get context "user" +:+ LF +:+
  LF +:+
  "Please analyze this error and provide:" +:+ LF +:+
  LF +:+
  "1. DIAGNOSIS: What is causing this error" +:+ LF +:+
  "2. IMMEDIATE SOLUTION: The exact command(s) to fix this issue" +:+ LF +:+
  "3. EXPLANATION: Why this error occurred" +:+ LF +:+
  "4. PREVENTION: How to avoid this in the future" +:+ LF +:+
  "5. ALTERNATIVES: Other ways to accomplish what the user was trying to do" +:+ LF +:+
  LF +:+
  "Use clean Markdown and fenced bash code blocks for commands that are executable on macOS.".

(** The prompt of [help_command] for a command that failed. *)
Definition help_failed_prompt (context : gmap string string) (command error_output : string) : string :=
  "You are an expert terminal command specialist. The user tried to run this command but it failed:" +:+ LF +:+
  LF +:+
  "COMMAND ATTEMPTED: " +:+ command +:+ LF +:+
  "ERROR OUTPUT: " +:+ error_output +:+ LF +:+
  LF +:+
  "Current system context:" +:+ LF +:+
  "- Working directory: " +:+ context_get context "cwd" +:+ LF +:+
  "- Shell: " +:+ context_get context "shell" +:+ LF +:+
  "- OS: " +:+ context_get context "os" +:+ LF +:+
  "- User: " +:+ context_get context "user" +:+ LF +:+
  LF +:+
  "Provide:" +:+ LF +:+
  LF +:+
  "1. ERROR ANALYSIS: What went wrong with this specific command" +:+ LF +:+
  "2. CORRECTED COMMAND: The exact fixed version of the command" +:+ LF +:+
  "3. EXPLANATION: Why the original command failed" +:+ LF +:+
  "4. COMMAND BREAKDOWN: Explain each part of the corrected command" +:+ LF +:+
  "5. USAGE EXAMPLES: 3-5 practical examples of how to use this command correctly" +:+ LF +:+
  "6. COMMON MISTAKES: Other common errors with this command and how to avoid them" +:+ LF +:+
  "7. RELATED COMMANDS: Similar or complementary commands that might be useful" +:+ LF +:+
  LF +:+
  "Respond in clean Markdown. Use fenced bash code blocks for commands (```bash). Ensure macOS compatibility.".

(** The prompt of [help_command] for a command to explain. *)
Definition help_explain_prompt (context : gmap string string) (command : string) : string :=
  "You are an expert terminal command instructor. The user wants to learn about this command: " +:+ command +:+ LF +:+
  LF +:+
  "Current system context:" +:+ LF +:+
  "- Working directory: " +:+ context_get context "cwd" +:+ LF +:+
  "- Shell: " +:+ context_get context "shell" +:+ LF +:+
  "- OS: " +:+ context_get context "os" +:+ LF +:+
  LF +:+
  "Provide a concise Markdown guide including:" +:+ LF +:+
  LF +:+
  "1. COMMAND PURPOSE" +:+ LF +:+
  "2. BASIC SYNTAX with real examples" +:+ LF +:+
  "3. COMMON OPTIONS" +:+ LF +:+
  "4. 5-7 PRACTICAL EXAMPLES" +:+ LF +:+
  "5. ADVANCED USAGE" +:+ LF +:+
  "6. SAFETY NOTES" +:+ LF +:+
  "7. RELATED COMMANDS" +:+ LF +:+
  "8. TROUBLESHOOTING" +:+ LF +:+
  LF +:+
  "Use fenced bash blocks for commands. Ensure macOS compatibility.".

Definition not_initialized_msg : string :=
  "Error: No AI client is initialized. Please ensure the client is set.".

Definition error_prefix : string := "Error generating response: ".

(** [self.client is None and self.openai_client is None]. *)
Definition no_clients (ai : TerminalAI) : bool :=
  match client ai, openai_client ai with
  | None, None => true
  | _, _ => false
  end.

(** The end every public method shares:
    [try: return self._generate_with_fallback(prompt)]
    [except Exception as e: return f"Error generating response: {str(e)}"]. *)
Definition generate_or_report (prompt : string) : M (option string) :=
  try_except (_generate_with_fallback prompt)
    (fun e => ret (Some (error_prefix +:+ exn_str e))).

Definition ask_question (context : gmap string string) (question : string)
    : M (option string) :=
  (let* ai := get self in
   if no_clients ai then ret (Some not_initialized_msg)
   else
     let prompt := ask_prompt context question in
     generate_or_report prompt)%py.

Definition debug_issue (context : gmap string string) (error_output : string)
    : M (option string) :=
  (let* ai := get self in
   if no_clients ai then ret (Some not_initialized_msg)
   else
     let prompt := debug_prompt context error_output in
     generate_or_report prompt)%py.

(** The prompt of [help_command(command, error_output=None)], chosen by the
    truth value of [error_output]. *)
Definition help_prompt (context : gmap string string) (command : string)
    (error_output : option string) : string :=
  match error_output with
  | Some eo =>
      if str_truthy error_output then help_failed_prompt context command eo
      else help_explain_prompt context command
  | None => help_explain_prompt context command
  end.

(** [help_command]: the prompt is built first, the clients are looked at
    afterwards. *)
Definition help_command (context : gmap string string) (command : string)
    (error_output : option string) : M (option string) :=
  let prompt := help_prompt context command error_output in
  (let* ai := get self in
   if no_clients ai then ret (Some not_initialized_msg)
   else generate_or_report prompt)%py.



(** ** Running a command: [execute_and_analyze] *)

(** What [subprocess.run(command, shell=True, capture_output=True, text=True,
    timeout=30, cwd=...)] does: finish, run into the timeout, or raise. *)
Inductive proc_result :=
| Completed (returncode : Z) (stdout stderr : string)
| TimeoutExpired
| RunRaises (e : exn).

(** The rest of the runtime: whether the import of [rich] worked, the shell,
    and what [rich] does with text it cannot render: [markup_error s] is the
    exception [console.print(s)] raises while it reads the markup of [s], if
    it raises one, and [markdown_error] is the exception [Markdown(None)]
    dies of. *)
Record runtime := Runtime {
  _RICH_AVAILABLE : bool;
  subprocess_run : string → string → proc_result;    (* command, cwd *)
  markup_error : string → option exn;
  markdown_error : exn
}.

(** What the program writes and runs, in order. *)
Inductive output :=
| Print (s : string)                                  (* print(s) *)
| ConsolePrint (s : string) (style : option string)   (* console.print(s, style=...) *)
| ConsoleMarkdown (s : string)      (* console.print(Markdown(s), style="default") *)
| Flush                                               (* sys.stdout.flush() *)
| ShellRun (command cwd : string).                    (* the call of subprocess.run *)

Record world := World { mach : machine; written : list output }.

Definition emit (os : list output) (w : world) : world :=
  World (mach w) (written w ++ os).

(** [needle in s]. *)
Fixpoint contains (needle s : string) : bool :=
  String.prefix needle s
  || match s with
     | EmptyString => false
     | String _ s' => contains needle s'
     end.

(** *** Markup that [rich] accepts

    [console.print] reads square brackets in its argument as markup and
    raises [MarkupError] on a closing tag that matches no open one.  Two
    shapes of text are known never to raise: text without any opening
    bracket, which is printed as it is, and text whose first bracket opens
    one of the styles the program uses, with no backslash before it, and
    whose only other bracket closes that style at the very end.  For every
    other text the runtime decides. *)

Definition LBRACKET : string := String (Ascii.ascii_of_nat 91) "".
Definition BACKSLASH : string := String (Ascii.ascii_of_nat 92) "".

(** The text up to the first opening bracket, and the text from it on. *)
Fixpoint before_bracket (s : string) : string :=
  match s with
  | EmptyString => ""
  | String c s' =>
      if Ascii.eqb c (Ascii.ascii_of_nat 91) then "" else String c (before_bracket s')
  end.

Fixpoint from_bracket (s : string) : string :=
  match s with
  | EmptyString => ""
  | String c s' =>
      if Ascii.eqb c (Ascii.ascii_of_nat 91) then s else from_bracket s'
  end.

(** [s] is [tag], a text without brackets, and the closing of [tag]. *)
Definition wrapped_in (tag s : string) : bool :=
  let opening := "[" +:+ tag +:+ "]" in
  let closing := "[/" +:+ tag +:+ "]" in
  let n := String.length s in
  let no := String.length opening in
  let nc := String.length closing in
  (no + nc <=? n)%nat
  && String.prefix opening s
  && String.eqb (String.substring (n - nc) nc s) closing
  && negb (contains LBRACKET (String.substring no (n - nc - no) s)).

Definition known_styles : list string :=
  ["bold magenta"; "bold red"; "bold green"; "bold yellow"].

Definition known_markup (s : string) : bool :=
  bool_decide (from_bracket s = "")
  || negb (contains BACKSLASH (before_bracket s))
     && existsb (fun tag => wrapped_in tag (from_bracket s)) known_styles.

(** The exception a write raises, if it raises one.  [print], the flush and
    [console.print] of a [Markdown] built from a string do not raise. *)
Definition raises (rt : runtime) (o : output) : option exn :=
  match o with
  | ConsolePrint s _ => if known_markup s then None else markup_error rt s
  | _ => None
  end.

(** Writes made one after the other: the first that raises ends the
    sequence and leaves nothing of its own behind. *)
Fixpoint perform (rt : runtime) (os : list output) (w : world) : res unit * world :=
  match os with
  | [] => (Ret tt, w)
  | o :: os' =>
      match raises rt o with
      | Some e => (Raise e, w)
      | None => perform rt os' (emit [o] w)
      end
  end.

(** The writes that are made: those before the first that raises. *)
Fixpoint performed (rt : runtime) (os : list output) : list output :=
  match os with
  | [] => []
  | o :: os' =>
      match raises rt o with
      | Some _ => []
      | None => o :: performed rt os'
      end
  end.

(** The exception of the first write that raises. *)
Fixpoint first_error (rt : runtime) (os : list output) : option exn :=
  match os with
  | [] => None
  | o :: os' =>
      match raises rt o with
      | Some e => Some e
      | None => first_error rt os'
      end
  end.

(** *** [str.strip()]

    Python strips the characters for which [str.isspace] holds: U+0009 to
    U+000D, U+001C to U+0020, U+0085, U+00A0, U+1680, U+2000 to U+200A,
    U+2028, U+2029, U+202F, U+205F and U+3000.  Strings are kept as UTF-8
    bytes here, so these are sequences of one, two or three bytes. *)

Definition ws1 (a : Ascii.ascii) : bool :=
  let n := Ascii.N_of_ascii a in
  ((9 <=? n) && (n <=? 13) || (28 <=? n) && (n <=? 32))%N.

Definition ws2 (a b : Ascii.ascii) : bool :=
  let n := Ascii.N_of_ascii a in
  let m := Ascii.N_of_ascii b in
  ((n =? 194) && ((m =? 133) || (m =? 160)))%N.

Definition ws3 (a b c : Ascii.ascii) : bool :=
  let n := Ascii.N_of_ascii a in
  let m := Ascii.N_of_ascii b in
  let k := Ascii.N_of_ascii c in
  ((n =? 225) && (m =? 154) && (k =? 128)
   || (n =? 226) && (m =? 128)
      && ((128 <=? k) && (k <=? 138) || (k =? 168) || (k =? 169) || (k =? 175))
   || (n =? 226) && (m =? 129) && (k =? 159)
   || (n =? 227) && (m =? 128) && (k =? 128))%N.

(** Dropping the white space at the start of a list of bytes; with
    [fwd = false] the list is a reversed string, and so is every character
    in it. *)
Fixpoint lstrip_bytes (fwd : bool) (s : list Ascii.ascii) : list Ascii.ascii :=
  match s with
  | a :: s1 =>
      if ws1 a then lstrip_bytes fwd s1
      else match s1 with
           | b :: s2 =>
               if (if fwd then ws2 a b else ws2 b a) then lstrip_bytes fwd s2
               else match s2 with
                    | c :: s3 =>
                        if (if fwd then ws3 a b c else ws3 c b a)
                        then lstrip_bytes fwd s3 else s
                    | [] => s
                    end
           | [] => s
           end
  | [] => []
  end.

Definition py_strip (s : string) : string :=
  String.string_of_list_ascii
    (rev (lstrip_bytes false
            (rev (lstrip_bytes true (String.list_ascii_of_string s))))).

(** [s * n] on a string. *)
Fixpoint str_mul (s : string) (n : nat) : string :=
  match n with
  | O => ""
  | S n' => s +:+ str_mul s n'
  end.

(** [os.path.basename] (POSIX): what follows the last slash. *)
Fixpoint basename_from (p rest : string) : string :=
  match p with
  | EmptyString => rest
  | String c p' =>
      if Ascii.eqb c (Ascii.ascii_of_nat 47) then basename_from p' p' else basename_from p' rest
  end.

Definition basename (p : string) : string := basename_from p p.

(** [s.split('\n')]. *)
Fixpoint split_lines (s : string) : list string :=
  match s with
  | EmptyString => [""]
  | String c s' =>
      if Ascii.eqb c (Ascii.ascii_of_nat 10) then "" :: split_lines s'
      else match split_lines s' with
           | line :: lines => String c line :: lines
           | [] => [String c ""]
           end
  end.

(** The lines of a captured stream that get printed:
    [if text: for line in text.split('\n'): if line.strip(): ...]. *)
Definition shown_lines (text : string) : list string :=
  if bool_decide (text = "") then []
  else filter (fun line => py_strip line ≠ "") (split_lines text).

Definition rich_head : list output :=
  [ConsolePrint ("╔" +:+ str_mul "═" 76 +:+ "╗") (Some "bold bright_blue");
   ConsolePrint ("║" +:+ str_mul " " 76 +:+ "║") (Some "bright_blue");
   ConsolePrint ("║" +:+ str_mul " " 25 +:+ "🖥️  ═══ TERMINAL OUTPUT ═══" +:+ str_mul " " 25 +:+ "║") (Some "bold bright_yellow on bright_blue");
   ConsolePrint ("║" +:+ str_mul " " 76 +:+ "║") (Some "bright_blue");
   ConsolePrint ("╠" +:+ str_mul "═" 76 +:+ "╣") (Some "bold bright_blue")].

Definition rich_foot : list output :=
  [ConsolePrint ("╚" +:+ str_mul "═" 76 +:+ "╝") (Some "bold bright_blue");
   ConsolePrint ("") (Some "dim");
   ConsolePrint ("┌─" +:+ str_mul "─" 74 +:+ "─┐") (Some "dim");
   ConsolePrint ("│ " +:+ str_mul " " 74 +:+ " │") (Some "dim");
   ConsolePrint ("│ " +:+ str_mul " " 30 +:+ "🤖 AI ANALYSIS BELOW" +:+ str_mul " " 24 +:+ " │") (Some "dim");
   ConsolePrint ("│ " +:+ str_mul " " 74 +:+ " │") (Some "dim");
   ConsolePrint ("└─" +:+ str_mul "─" 74 +:+ "─┘") (Some "dim")].

Definition plain_head : list output :=
  [Print ("╔" +:+ str_mul "═" 76 +:+ "╗");
   Print ("║" +:+ str_mul " " 76 +:+ "║");
   Print ("║" +:+ str_mul " " 25 +:+ "🖥️  ═══ TERMINAL OUTPUT ═══" +:+ str_mul " " 25 +:+ "║");
   Print ("║" +:+ str_mul " " 76 +:+ "║");
   Print ("╠" +:+ str_mul "═" 76 +:+ "╣")].

Definition plain_foot : list output :=
  [Print ("╚" +:+ str_mul "═" 76 +:+ "╝");
   Print ("");
   Print ("┌─" +:+ str_mul "─" 74 +:+ "─┐");
   Print ("│ " +:+ str_mul " " 74 +:+ " │");
   Print ("│ " +:+ str_mul " " 30 +:+ "🤖 AI ANALYSIS BELOW" +:+ str_mul " " 30 +:+ " │");
   Print ("│ " +:+ str_mul " " 74 +:+ " │");
   Print ("└─" +:+ str_mul "─" 74 +:+ "─┘")].

(** The writes of the framed display of the captured output, in the order
    in which the program attempts them; [perform] says how far it gets. *)
Definition show_output (rt : runtime) (stdout stderr : string) : list output :=
  if _RICH_AVAILABLE rt then
    rich_head
    ++ map (fun line => ConsolePrint ("║ " +:+ line) (Some "bright_white"))
         (shown_lines stdout)
    ++ map (fun line => ConsolePrint ("║ " +:+ line) (Some "bold bright_red"))
         (shown_lines stderr)
    ++ rich_foot
  else
    plain_head
    ++ map (fun line => Print ("║ " +:+ line)) (shown_lines stdout)
    ++ map (fun line => Print ("║ " +:+ line)) (shown_lines stderr)
    ++ plain_foot.

(** The prompt sent after the command has finished. *)
Definition analysis_prompt (context : gmap string string) (command status : string)
    (return_code : Z) (stdout stderr : string) : string :=
  "You are an expert system administrator and command analyst. A command was just executed and you need to analyze the results." +:+ LF +:+
  LF +:+
  "COMMAND EXECUTED: " +:+ command +:+ LF +:+
  "EXECUTION STATUS: " +:+ status +:+ LF +:+
  "RETURN CODE: " +:+ pretty return_code +:+ LF +:+
  LF +:+
  "STDOUT:" +:+ LF +:+
  (if bool_decide (stdout = "") then "(no output)" else stdout) +:+ LF +:+
  LF +:+
  "STDERR:" +:+ LF +:+
  (if bool_decide (stderr = "") then "(no errors)" else stderr) +:+ LF +:+
  LF +:+
  "Current system context:" +:+ LF +:+
  "- Working directory: " +:+ context_get context "cwd" +:+ LF +:+
  "- Shell: " +:+ context_get context "shell" +:+ LF +:+
  "- OS: " +:+ context_get context "os" +:+ LF +:+
  "- User: " +:+ context_get context "user" +:+ LF +:+
  LF +:+
  "CRITICAL: The verdict must be based on the return code:" +:+ LF +:+
  "- Return code 0 = SUCCESS (command completed successfully)" +:+ LF +:+
  "- Return code non-zero = FAILED (command failed, regardless of output content)" +:+ LF +:+
  LF +:+
  "Commands like 'git main' fail with return code 1 and show error messages in stdout, not stderr. This is still a FAILURE." +:+ LF +:+
  LF +:+
  "Please provide a comprehensive analysis in the following format:" +:+ LF +:+
  LF +:+
  "## EXECUTION VERDICT" +:+ LF +:+
  "**Status:** " +:+ status +:+ LF +:+
  "**Command:** `" +:+ command +:+ "`" +:+ LF +:+
  "**Return Code:** " +:+ pretty return_code +:+ LF +:+
  LF +:+
  "## ANALYSIS" +:+ LF +:+
  "- **What happened:** Brief explanation of what the command did" +:+ LF +:+
  "- **Success/Failure reason:** Why it succeeded or failed (MUST consider return code)" +:+ LF +:+
  "- **Output interpretation:** What the output means" +:+ LF +:+
  LF +:+
  "## RECOMMENDATIONS" +:+ LF +:+
  "- **What could be done differently:** Suggestions for improvement" +:+ LF +:+
  "- **Alternative approaches:** Other ways to achieve the same goal" +:+ LF +:+
  "- **Next steps:** What to do next" +:+ LF +:+
  LF +:+
  "## COMMAND BREAKDOWN" +:+ LF +:+
  "- **Purpose:** What this command is designed to do" +:+ LF +:+
  "- **Key components:** Important parts of the command" +:+ LF +:+
  "- **Safety notes:** Any potential risks or considerations" +:+ LF +:+
  LF +:+
  "CRITICAL: At the very end of your response, add a verdict line in this exact format:" +:+ LF +:+
  "- If return code is 0: VERDICT: SUCCESS" +:+ LF +:+
  "- If return code is non-zero: VERDICT: FAILED" +:+ LF +:+
  LF +:+
  "The verdict MUST match the return code, not the content of the output." +:+ LF +:+
  LF +:+
  "Use clean Markdown formatting with fenced bash code blocks for commands. Ensure macOS compatibility.".

Definition timeout_report (command : string) : string :=
  "## EXECUTION VERDICT" +:+ LF +:+ "**Status:** TIMEOUT" +:+ LF +:+ "**Command:** `" +:+ command +:+ "`" +:+ LF +:+ LF +:+ "## ANALYSIS" +:+ LF +:+ "- **What happened:** The command exceeded the 30-second timeout limit" +:+ LF +:+ "- **Recommendation:** Consider breaking down the command or using a different approach for long-running operations".

Definition error_report (command : string) (e : exn) : string :=
  "## EXECUTION VERDICT" +:+ LF +:+ "**Status:** ERROR" +:+ LF +:+ "**Command:** `" +:+ command +:+ "`" +:+ LF +:+ LF +:+ "## ANALYSIS" +:+ LF +:+ "- **What happened:** An error occurred while trying to execute the command" +:+ LF +:+ "- **Error details:** " +:+ exn_str e +:+ LF +:+ "- **Recommendation:** Check command syntax and system permissions".

Definition analysis_error_prefix : string := "Error generating AI analysis: ".

(** The line that shows the command as a shell prompt would. *)
Definition prompt_line (h : host) (wd command : string) : string :=
  let user := default "user" (environ h !! "USER") in
  let hostname := default "MacBook-Pro" (environ h !! "HOSTNAME") in
  let cwd := basename wd in
  let venv := default "" (environ h !! "VIRTUAL_ENV") in
  let venv_name := if bool_decide (venv = "") then "" else basename venv in
  if bool_decide (venv_name = "") then user +:+ "@" +:+ hostname +:+ " " +:+ cwd +:+ " % " +:+ command
  else "(" +:+ venv_name +:+ ") " +:+ user +:+ "@" +:+ hostname +:+ " " +:+ cwd +:+ " % " +:+ command.

(** The handler [except Exception as e] of the outer [try]: it is entered
    when [subprocess.run] raises and also when a write of the display
    does. *)
Definition report_failure (rt : runtime) (command : string) (e : exn) (w : world)
    : res (option string) * world :=
  let error_msg := "Error executing command: " +:+ exn_str e in
  let w := emit [Print error_msg] w in
  match perform rt [if _RICH_AVAILABLE rt
                    then ConsolePrint ("💥 [bold red]Execution error![/bold red]") None
                    else Print ("💥 Execution error!")] w with
  | (Raise e', w) => (Raise e', w)
  | (Ret _, w) => (Ret (Some (error_report command e)), w)
  end.

(** [execute_and_analyze].  The display of the output is inside the outer
    [try], the request to the providers inside an inner one of its own. *)
Definition execute_and_analyze (h : host) (rt : runtime)
    (context : gmap string string) (command : string)
    (w : world) : res (option string) * world :=
  if no_clients (self (mach w)) then (Ret (Some not_initialized_msg), w)
  else
    match getcwd h with
    | inr e => (Raise e, w)
    | inl wd =>
        let w := emit [Print (prompt_line h wd command)] w in
        let run_cwd := default wd (context !! "cwd") in
        let w := emit [ShellRun command run_cwd] w in
        match subprocess_run rt command run_cwd with
        | Completed return_code stdout stderr =>
            match perform rt (show_output rt stdout stderr) w with
            | (Raise e, w) => report_failure rt command e w
            | (Ret _, w) =>
                let w := emit [Print ""; Flush] w in
                let success := bool_decide (return_code = 0%Z) in
                let status := if success then "SUCCESS" else "FAILED" in
                let prompt :=
                  analysis_prompt context command status return_code stdout stderr in
                match _generate_with_fallback prompt (mach w) with
                | (Ret analysis, m') => (Ret analysis, World m' (written w))
                | (Raise e, m') =>
                    (Ret (Some (analysis_error_prefix +:+ exn_str e)),
                     World m' (written w))
                end
            end
        | TimeoutExpired =>
            let error_msg := "Command timed out after 30 seconds: " +:+ command in
            let w := emit [Print error_msg] w in
            match perform rt [if _RICH_AVAILABLE rt
                              then ConsolePrint ("⏰ [bold yellow]Command timed out![/bold yellow]") None
                              else Print ("⏰ Command timed out!")] w with
            | (Raise e, w) => (Raise e, w)
            | (Ret _, w) => (Ret (Some (timeout_report command)), w)
            end
        | RunRaises e => report_failure rt command e w
        end
    end.

(** ** The command line: [main] *)

(** How a run of the program ends: it falls off the end of [main], calls
    [sys.exit], or dies of an exception nobody catches. *)
Inductive ended :=
| Finished
| Exited (code : Z)
| Crashed (e : exn).

(** [" ".join(args)]. *)
Fixpoint join_args (args : list string) : string :=
  match args with
  | [] => ""
  | [a] => a
  | a :: rest => a +:+ " " +:+ join_args rest
  end.

(** [s.replace(old, "")] for a non-empty [old]: occurrences are found from
    the left and do not overlap; [skip] counts the characters of a found
    occurrence that are still to be dropped. *)
Fixpoint str_remove_from (old s : string) (skip : nat) : string :=
  match s with
  | EmptyString => ""
  | String c s' =>
      match skip with
      | S k => str_remove_from old s' k
      | O =>
          if String.prefix old s
          then str_remove_from old s' (String.length old - 1)
          else String c (str_remove_from old s' 0)
      end
  end.

Definition str_remove (old s : string) : string := str_remove_from old s 0.

Definition error_marker : string := "Error generating response:".

(** The notice about the provider, printed after the method has returned:
    [if console and ai.last_status and ai.last_status.get("provider") == "gemini"].
    A reason that is not a string cannot be concatenated. *)
Definition fallback_notice (rt : runtime) (ai : TerminalAI) : res (list output) :=
  if _RICH_AVAILABLE rt && truthy (last_status ai) then
    match last_status ai with
    | Some d =>
        if bool_decide (d !! "provider" = Some (VStr "gemini")) then
          match default (VStr "") (d !! "reason") with
          | VStr reason =>
              Ret [ConsolePrint ("[bold magenta]⏩ Falling back to Gemini (" +:+ reason +:+ ")[/bold magenta]") None]
          | VInt _ =>
              Raise (Exn OtherException
                       ("can only concatenate str (not " +:+ DQ +:+ "int" +:+ DQ
                        +:+ ") to str"))
          end
        else Ret []
    | None => Ret []
    end
  else Ret [].

(** The last step of every mode: the answer in red when it is a string that
    starts with the error marker, as Markdown otherwise, or plainly without
    [rich].  An answer that is [None] cannot be made into Markdown;
    [print] shows it as the word None. *)
Definition render (rt : runtime) (response : option string) (w : world)
    : res unit * world :=
  if _RICH_AVAILABLE rt then
    match response with
    | Some s =>
        if String.prefix error_marker s
        then perform rt [ConsolePrint ("[bold red]" +:+ s +:+ "[/bold red]") None] w
        else perform rt [ConsoleMarkdown s] w
    | None => (Raise (markdown_error rt), w)
    end
  else perform rt [Print (default "None" response)] w.

(** The banner of the help mode, read off the answer. *)
Definition verdict_banner (rt : runtime) (response : string) : list output :=
  if contains "VERDICT: SUCCESS" response then
    [if _RICH_AVAILABLE rt
     then ConsolePrint ("✅ [bold green]Command executed successfully![/bold green]") None
     else Print ("✅ Command executed successfully!")]
  else if contains "VERDICT: FAILED" response then
    [if _RICH_AVAILABLE rt
     then ConsolePrint ("❌ [bold red]Command failed![/bold red]") None
     else Print ("❌ Command failed!")]
  else [].

(** The end of a mode whose last statement is [x]. *)
Definition finish (x : res unit * world) : ended * world :=
  match x with
  | (Raise e, w) => (Crashed e, w)
  | (Ret _, w) => (Finished, w)
  end.

(** The notice and the rendering that end the modes "ask" and "debug". *)
Definition finish_answer (rt : runtime) (response : res (option string)) (w : world)
    : ended * world :=
  match response with
  | Raise e => (Crashed e, w)
  | Ret response =>
      match fallback_notice rt (self (mach w)) with
      | Raise e => (Crashed e, w)
      | Ret notice =>
          match perform rt notice w with
          | (Raise e, w) => (Crashed e, w)
          | (Ret _, w) => finish (render rt response w)
          end
      end
  end.

(** The same for the mode "help", with the banner and the removal of the
    verdict line in between, both only for an answer that is a string and
    does not start with the error marker. *)
Definition finish_help (rt : runtime) (response : res (option string)) (w : world)
    : ended * world :=
  match response with
  | Raise e => (Crashed e, w)
  | Ret response =>
      match fallback_notice rt (self (mach w)) with
      | Raise e => (Crashed e, w)
      | Ret notice =>
          match perform rt notice w with
          | (Raise e, w) => (Crashed e, w)
          | (Ret _, w) =>
              match response with
              | Some s =>
                  if negb (String.prefix error_marker s) then
                    match perform rt (verdict_banner rt s) w with
                    | (Raise e, w) => (Crashed e, w)
                    | (Ret _, w) =>
                        let response :=
                          py_strip
                            (str_remove "VERDICT: FAILED"
                               (str_remove "VERDICT: SUCCESS" s)) in
                        finish (render rt (Some response) w)
                    end
                  else finish (render rt (Some s) w)
              | None => finish (render rt None w)
              end
          end
      end
  end.

(** [main], run with [sys.argv = argv] at time [t] against the remote
    services [r]: how it ends, what it wrote, and the machine of the
    instance, if one was built. *)
Definition main (h : host) (rt : runtime) (r : remote) (t : N) (argv : list string)
    : ended * list output * option machine :=
  match argv with
  | [] | [_] =>
      (Exited 1,
       [Print ("Usage: python3 ~/ai_helper.py <mode> <input>");
        Print ("Modes: ask, debug, help")],
       None)
  | _ :: mode :: args =>
      let ai := fst (TerminalAI_new h) in
      let context := snd (TerminalAI_new h) in
      let w := World (boot ai r t) [] in
      if bool_decide (mode = "ask") then
        match args with
        | [] => (Exited 1, [Print ("Usage: aiask <question>")], Some (mach w))
        | _ =>
            let question := join_args args in
            let '(response, m) := ask_question context question (mach w) in
            let '(e, w') := finish_answer rt response (World m (written w)) in
            (e, written w', Some (mach w'))
        end
      else if bool_decide (mode = "debug") then
        match args with
        | [] => (Exited 1, [Print ("Usage: aidebug <error_output>")], Some (mach w))
        | _ =>
            let error := join_args args in
            let '(response, m) := debug_issue context error (mach w) in
            let '(e, w') := finish_answer rt response (World m (written w)) in
            (e, written w', Some (mach w'))
        end
      else if bool_decide (mode = "help") then
        match args with
        | [] => (Exited 1, [Print ("Usage: aihelp <command>")], Some (mach w))
        | _ =>
            let command := join_args args in
            let '(response, w1) := execute_and_analyze h rt context command w in
            let '(e, w') := finish_help rt response w1 in
            (e, written w', Some (mach w'))
        end
      else
        (Exited 1,
         [Print ("Unknown mode: " +:+ mode);
          Print ("Available modes: ask, debug, help")],
         Some (mach w))
  end.

(** The calls of [subprocess.run] among what was written. *)
Definition shell_runs (os : list output) : list (string * string) :=
  omap (fun o => match o with ShellRun c d => Some (c, d) | _ => None end) os.

(** The status word [execute_and_analyze] derives from a return code. *)
Definition status_word (return_code : Z) : string :=
  if bool_decide (return_code = 0%Z) then "SUCCESS" else "FAILED".




(** The write with which the last step shows an answer that is a string. *)
Definition answer_write (rt : runtime) (s : string) : output :=
  if _RICH_AVAILABLE rt then
    if String.prefix error_marker s
    then ConsolePrint ("[bold red]" +:+ s +:+ "[/bold red]") None
    else ConsoleMarkdown s
  else Print s.


(** A sample host with the given environment, where every call works, and a
    sample runtime whose shell always gives the same result and whose [rich]
    raises [MarkupError] on every text that holds a closing tag and is not of
    a known shape. *)
Definition host_with (env : gmap string string) : host :=
  Host env (inl "/home/ann/proj") (inl "Darwin box 23.1") true
    (fun _ => false) (fun _ => false).

Definition MarkupError (s : string) : exn :=
  Exn OtherException ("closing tag in " +:+ s +:+ " doesn't match any open tag").

Definition runtime_with (rich : bool) (p : proc_result) : runtime :=
  Runtime rich (fun _ _ => p)
    (fun s => if contains "[/" s then Some (MarkupError s) else None)
    (Exn OtherException "Input data should be a string, not <class 'NoneType'>").

Definition both_keys : gmap string string :=
  {[ "OPENAI_API_KEY" := "sk-test"; "GEMINI_API_KEY" := "g-test" ]}.

Definition gemini_key_only : gmap string string :=
  {[ "GOOGLE_API_KEY" := "g-test" ]}.

(** ** More ways to read the log *)


(** The prompt a logged request carries, if the event is a request. *)
Definition request_prompt (e : event) : option string :=
  match e with
  | OpenAIRequest _ p => Some p
  | GeminiSubmit p => Some p
  | _ => None
  end.

(** The characters a terminal shows for a write that starts with a carriage
    return and has no other control character: everything after the first
    character. *)
Definition shown_width (line : string) : nat := String.length line - 1.

(** ** Symbolic runs of the two parts *)

Lemma remaining_at_submit (t d : N) : (t + d - t = d)%N.
Proof. lia. Qed.

Lemma remaining_when_done (t d : N) : (t + d - (t + d) = 0)%N.
Proof. lia. Qed.

Lemma remaining_after_timeout (t d w : N) : (t + d - (t + w) = d - w)%N.
Proof. lia. Qed.

Ltac run_py :=
  unfold bind, get, modify, ret, raise, try_except, with_exit,
    _start_spinner, Event_set, time_sleep, set_last_status, openai_create,
    pool_submit, fut_result, pool_exit, remaining,
    log, advance, fresh_handle, set_self; simpl.

Ltac tidy_log :=
  rewrite <- ?app_assoc; simpl;
  change (500 * 2 * 2)%N with 2000%N; change (500 * 2)%N with 1000%N.

Lemma gemini_part_absent s n t evs h prompt :
  client s = None →
  gemini_part prompt (Machine s n t evs h)
  = (Raise (Exn RuntimeError no_client_msg), Machine s n t evs h).
Proof. intros Hc. unfold gemini_part. run_py. rewrite Hc. reflexivity. Qed.

Lemma gemini_part_returns s n t evs h gc prompt resp :
  client s = Some gc →
  (took (models_generate_content n prompt) ≤ 7000)%N →
  outcome (models_generate_content n prompt) = inl resp →
  gemini_part prompt (Machine s n t evs h)
  = (Ret (getattr_text resp),
     Machine
       (with_status s
          (gemini_status (last_status s)
             (elapsed_ms t (t + took (models_generate_content n prompt)))))
       n (t + took (models_generate_content n prompt))
       (evs ++ [SpinnerStart h default_phases 500; GeminiSubmit prompt;
                FutureWait (took (models_generate_content n prompt));
                SpinnerStop h; PoolShutdown 0])
       (S h)).
Proof.
  intros Hc Hd Ho. unfold gemini_part. run_py. rewrite Hc. run_py.
  rewrite remaining_at_submit.
  apply N.leb_le in Hd. rewrite Hd, Ho. simpl.
  unfold gemini_status, with_status.
  destruct (negb (truthy (last_status s))); simpl;
    rewrite remaining_when_done, N.add_0_r; tidy_log; reflexivity.
Qed.

Lemma gemini_part_raises s n t evs h gc prompt e :
  client s = Some gc →
  (took (models_generate_content n prompt) ≤ 7000)%N →
  outcome (models_generate_content n prompt) = inr e →
  gemini_part prompt (Machine s n t evs h)
  = (Raise (Exn RuntimeError
              (match exn_class e with
               | FuturesTimeoutError => timeout_msg
               | _ => failed_msg e
               end)),
     Machine s n (t + took (models_generate_content n prompt))
       (evs ++ [SpinnerStart h default_phases 500; GeminiSubmit prompt;
                FutureWait (took (models_generate_content n prompt));
                SpinnerStop h; PoolShutdown 0])
       (S h)).
Proof.
  intros Hc Hd Ho. unfold gemini_part. run_py. rewrite Hc. run_py.
  rewrite remaining_at_submit.
  apply N.leb_le in Hd. rewrite Hd, Ho. simpl.
  destruct (exn_class e); run_py; rewrite remaining_when_done; tidy_log;
    rewrite N.add_0_r; reflexivity.
Qed.

Lemma gemini_part_times_out s n t evs h gc prompt :
  client s = Some gc →
  (7000 < took (models_generate_content n prompt))%N →
  gemini_part prompt (Machine s n t evs h)
  = (Raise (Exn RuntimeError timeout_msg),
     Machine s n (t + took (models_generate_content n prompt))
       (evs ++ [SpinnerStart h default_phases 500; GeminiSubmit prompt;
                FutureWait 7000; SpinnerStop h;
                PoolShutdown (took (models_generate_content n prompt) - 7000)])
       (S h)).
Proof.
  intros Hc Hd. unfold gemini_part. run_py. rewrite Hc. run_py.
  rewrite remaining_at_submit.
  apply N.leb_gt in Hd. rewrite Hd. run_py.
  rewrite remaining_after_timeout. tidy_log.
  apply N.leb_gt in Hd.
  replace (t + 7000 + (took (models_generate_content n prompt) - 7000))%N
    with (t + took (models_generate_content n prompt))%N by lia.
  reflexivity.
Qed.

Section OpenAIPart.
Variables (s : TerminalAI) (n : remote) (t : N) (evs : list event) (h : nat).
Variables (prompt : string).

Local Abbreviation req k := (chat_completions_create n k prompt).
Local Abbreviation now := (Machine s n t evs h).

Lemma openai_part_unconfigured :
  openai_client s = None → openai_part prompt now = (Ret None, now).
Proof. intros Ho. unfold openai_part. run_py. rewrite Ho. reflexivity. Qed.

Lemma openai_part_first oc text :
  openai_client s = Some oc →
  outcome (req 0) = inl text →
  openai_part prompt now
  = (Ret (Some text),
     Machine (with_status s (Some (openai_ok_status (elapsed_ms t (t + took (req 0))))))
       n (t + took (req 0))
       (evs ++ [SpinnerStart h default_phases 500; OpenAIRequest 0 prompt;
                SpinnerStop h])
       (S h)).
Proof.
  intros Ho H0. unfold openai_part. run_py. rewrite Ho. run_py.
  rewrite H0. simpl. tidy_log. reflexivity.
Qed.

Lemma openai_part_second oc e0 text :
  openai_client s = Some oc →
  outcome (req 0) = inr e0 →
  outcome (req 1) = inl text →
  openai_part prompt now
  = (Ret (Some text),
     Machine
       (with_status s
          (Some (openai_ok_status
                   (elapsed_ms t (t + took (req 0) + 500 + took (req 1))))))
       n (t + took (req 0) + 500 + took (req 1))
       (evs ++ [SpinnerStart h default_phases 500; OpenAIRequest 0 prompt;
                Sleep 500; OpenAIRequest 1 prompt; SpinnerStop h])
       (S h)).
Proof.
  intros Ho H0 H1. unfold openai_part. run_py. rewrite Ho. run_py.
  rewrite H0. simpl. rewrite H1. simpl. tidy_log.
  reflexivity.
Qed.

Lemma openai_part_third oc e0 e1 text :
  openai_client s = Some oc →
  outcome (req 0) = inr e0 →
  outcome (req 1) = inr e1 →
  outcome (req 2) = inl text →
  openai_part prompt now
  = (Ret (Some text),
     Machine
       (with_status s
          (Some (openai_ok_status
                   (elapsed_ms t
                      (t + took (req 0) + 500 + took (req 1) + 1000 + took (req 2))))))
       n (t + took (req 0) + 500 + took (req 1) + 1000 + took (req 2))
       (evs ++ [SpinnerStart h default_phases 500; OpenAIRequest 0 prompt;
                Sleep 500; OpenAIRequest 1 prompt; Sleep 1000;
                OpenAIRequest 2 prompt; SpinnerStop h])
       (S h)).
Proof.
  intros Ho H0 H1 H2. unfold openai_part. run_py. rewrite Ho. run_py.
  rewrite H0. simpl. rewrite H1. simpl. rewrite H2. simpl. tidy_log.
  reflexivity.
Qed.

Lemma openai_part_exhausted oc e0 e1 e2 :
  openai_client s = Some oc →
  outcome (req 0) = inr e0 →
  outcome (req 1) = inr e1 →
  outcome (req 2) = inr e2 →
  openai_part prompt now
  = (Ret None,
     Machine
       (with_status s (Some (openai_failed_status e2)))
       n (t + took (req 0) + 500 + took (req 1) + 1000 + took (req 2) + 2000)
       (evs ++ [SpinnerStart h default_phases 500; OpenAIRequest 0 prompt;
                Sleep 500; OpenAIRequest 1 prompt; Sleep 1000;
                OpenAIRequest 2 prompt; Sleep 2000; SpinnerStop h])
       (S h)).
Proof.
  intros Ho H0 H1 H2. unfold openai_part. run_py. rewrite Ho. run_py.
  rewrite H0. simpl. rewrite H1. simpl. rewrite H2. simpl. tidy_log.
  reflexivity.
Qed.
End OpenAIPart.

(** ** Whole runs *)

Lemma run_eq prompt m :
  _generate_with_fallback prompt m
  = match openai_part prompt m with
    | (Ret (Some text), m') => (Ret text, m')
    | (Ret None, m') => gemini_part prompt m'
    | (Raise e, m') => (Raise e, m')
    end.
Proof.
  unfold _generate_with_fallback, bind.
  destruct (openai_part prompt m) as [[[text|]|e] m']; reflexivity.
Qed.

Lemma primary_exhausted_inv r prompt :
  primary_exhausted r prompt →
  ∃ e0 e1 e2,
    outcome (chat_completions_create r 0 prompt) = inr e0 ∧
    outcome (chat_completions_create r 1 prompt) = inr e1 ∧
    outcome (chat_completions_create r 2 prompt) = inr e2.
Proof.
  intros H.
  destruct (H 0) as [e0 H0]; [lia|].
  destruct (H 1) as [e1 H1]; [lia|].
  destruct (H 2) as [e2 H2]; [lia|].
  eauto 7.
Qed.

(** Split a run on what the OpenAI part does, and rewrite it away. *)
Ltac primary_cases ai r prompt :=
  rewrite run_eq; unfold boot;
  let oc := fresh "oc" in
  let Hoc := fresh "Hoc" in
  let H0 := fresh "H0" in
  let H1 := fresh "H1" in
  let H2 := fresh "H2" in
  destruct (openai_client ai) as [oc|] eqn:Hoc;
  [ destruct (outcome (chat_completions_create r 0 prompt)) as [?text|?e] eqn:H0;
    [ rewrite (openai_part_first _ _ _ _ _ _ _ _ Hoc H0)
    | destruct (outcome (chat_completions_create r 1 prompt)) as [?text|?e] eqn:H1;
      [ rewrite (openai_part_second _ _ _ _ _ _ _ _ _ Hoc H0 H1)
      | destruct (outcome (chat_completions_create r 2 prompt)) as [?text|?e] eqn:H2;
        [ rewrite (openai_part_third _ _ _ _ _ _ _ _ _ _ Hoc H0 H1 H2)
        | rewrite (openai_part_exhausted _ _ _ _ _ _ _ _ _ _ Hoc H0 H1 H2) ] ] ]
  | rewrite (openai_part_unconfigured _ _ _ _ _ _ Hoc) ].

(** Split what is left of a run on what the Gemini part does. *)
Ltac secondary_cases ai r prompt :=
  let gc := fresh "gc" in
  let Hgc := fresh "Hgc" in
  let Hd := fresh "Hd" in
  let Hg := fresh "Hg" in
  destruct (client ai) as [gc|] eqn:Hgc;
  [ destruct (N.le_gt_cases (took (models_generate_content r prompt)) 7000) as [Hd|Hd];
    [ destruct (outcome (models_generate_content r prompt)) as [?resp|?e] eqn:Hg;
      [ erewrite gemini_part_returns by (simpl; eassumption)
      | erewrite gemini_part_raises by (simpl; eassumption) ]
    | erewrite gemini_part_times_out by (simpl; eassumption) ]
  | rewrite gemini_part_absent by (simpl; assumption) ].

(** What the Gemini part adds to the log, in one formula. *)
Lemma gemini_part_log s n t evs h prompt :
  events (snd (gemini_part prompt (Machine s n t evs h)))
  = (evs ++
     match client s with
     | None => []
     | Some _ =>
         [SpinnerStart h default_phases 500; GeminiSubmit prompt;
          FutureWait (N.min (took (models_generate_content n prompt)) 7000);
          SpinnerStop h;
          PoolShutdown (took (models_generate_content n prompt) - 7000)]
     end)%list.
Proof.
  secondary_cases s n prompt; simpl; rewrite ?app_nil_r; try reflexivity.
  - rewrite N.min_l by lia.
    replace (took (models_generate_content n prompt) - 7000)%N with 0%N by lia.
    reflexivity.
  - rewrite N.min_l by lia.
    replace (took (models_generate_content n prompt) - 7000)%N with 0%N by lia.
    reflexivity.
  - rewrite N.min_r by lia. reflexivity.
Qed.

(** The caller leaves the Gemini part only when the submitted request is done. *)
Lemma gemini_part_clock s n t evs h prompt :
  monotonic (snd (gemini_part prompt (Machine s n t evs h)))
  = match client s with
    | None => t
    | Some _ => (t + took (models_generate_content n prompt))%N
    end.
Proof. secondary_cases s n prompt; reflexivity. Qed.

(** ** Neither provider configured *)

(** C9. With neither client configured the call raises the "no client"
    RuntimeError at once: the machine it leaves is the machine it found, so
    no request was sent, no spinner started, nothing slept or waited for, and
    the clock did not move. *)
Theorem C9_neither_configured_fails_at_once ai r t prompt :
  openai_client ai = None →
  client ai = None →
  _generate_with_fallback prompt (boot ai r t)
    = (Raise (Exn RuntimeError no_client_msg), boot ai r t)
  ∧ events (snd (_generate_with_fallback prompt (boot ai r t))) = []
  ∧ elapsed (boot ai r t) (snd (_generate_with_fallback prompt (boot ai r t))) = 0%N.
Proof.
  intros Ho Hc.
  assert (E : _generate_with_fallback prompt (boot ai r t)
              = (Raise (Exn RuntimeError no_client_msg), boot ai r t)).
  { rewrite run_eq. unfold boot.
    rewrite (openai_part_unconfigured _ _ _ _ _ _ Ho).
    apply gemini_part_absent, Hc. }
  rewrite E. unfold elapsed. simpl. repeat split. lia.
Qed.

Lemma C9_witness :
  _generate_with_fallback "ls" (boot (TerminalAI_init None None) (openai_down 5) 42)
    = (Raise (Exn RuntimeError no_client_msg),
       boot (TerminalAI_init None None) (openai_down 5) 42)
  ∧ events (snd (_generate_with_fallback "ls"
                   (boot (TerminalAI_init None None) (openai_down 5) 42))) = []
  ∧ elapsed (boot (TerminalAI_init None None) (openai_down 5) 42)
      (snd (_generate_with_fallback "ls"
              (boot (TerminalAI_init None None) (openai_down 5) 42))) = 0%N.
Proof.
  apply (C9_neither_configured_fails_at_once
           (TerminalAI_init None None) (openai_down 5) 42 "ls");
    reflexivity.
Defined.

(** ** Gemini not configured *)

(** The claim as written wants the shorter message when OpenAI was never
    configured; the code has one message for both cases. *)
Lemma C3_counterexample :
  fst (_generate_with_fallback "ls" (boot (TerminalAI_init None None) (openai_down 5) 0))
    = Raise (Exn RuntimeError "No AI client is available (both OpenAI and Gemini failed).")
  ∧ fst (_generate_with_fallback "ls" (boot (TerminalAI_init None None) (openai_down 5) 0))
    ≠ Raise (Exn RuntimeError "No AI client is available.").
Proof. split; [reflexivity | discriminate]. Qed.

(** C3, amended. When Gemini is not configured and control reaches the Gemini
    part (OpenAI not configured, or its three requests all raised), the call
    raises a RuntimeError whose message is always [no_client_msg], whichever
    of the two it was. *)
Theorem C3_no_secondary_one_message ai r t prompt :
  client ai = None →
  falls_through ai r prompt →
  fst (_generate_with_fallback prompt (boot ai r t))
  = Raise (Exn RuntimeError no_client_msg).
Proof.
  intros Hc [Ho | Hx].
  - rewrite run_eq. unfold boot.
    rewrite (openai_part_unconfigured _ _ _ _ _ _ Ho).
    rewrite gemini_part_absent by exact Hc. reflexivity.
  - destruct (primary_exhausted_inv _ _ Hx) as (e0 & e1 & e2 & H0 & H1 & H2).
    rewrite run_eq. unfold boot.
    destruct (openai_client ai) as [oc|] eqn:Ho.
    + rewrite (openai_part_exhausted _ _ _ _ _ _ _ _ _ _ Ho H0 H1 H2).
      rewrite gemini_part_absent by exact Hc. reflexivity.
    + rewrite (openai_part_unconfigured _ _ _ _ _ _ Ho).
      rewrite gemini_part_absent by exact Hc. reflexivity.
Qed.

Lemma C3_witness :
  fst (_generate_with_fallback "ls"
         (boot (TerminalAI_init (Some openai_key) None) (openai_down 5) 0))
  = Raise (Exn RuntimeError no_client_msg)
  ∧ fst (_generate_with_fallback "ls"
         (boot (TerminalAI_init None None) (openai_down 5) 0))
  = Raise (Exn RuntimeError no_client_msg).
Proof.
  split.
  - apply (C3_no_secondary_one_message
             (TerminalAI_init (Some openai_key) None) (openai_down 5) 0 "ls").
    + reflexivity.
    + right. intros k _. exists rate_limited. reflexivity.
  - apply (C3_no_secondary_one_message
             (TerminalAI_init None None) (openai_down 5) 0 "ls").
    + reflexivity.
    + left. reflexivity.
Defined.

(** ** The retry loop *)

Lemma openai_ok_status_provider d :
  openai_ok_status d !! "provider" = Some (VStr "openai").
Proof. reflexivity. Qed.

Lemma openai_ok_status_reason d :
  openai_ok_status d !! "reason" = Some (VStr "ok").
Proof. reflexivity. Qed.

Lemma openai_failed_status_provider e :
  openai_failed_status e !! "provider" = Some (VStr "gemini").
Proof. reflexivity. Qed.

Lemma openai_failed_status_reason e :
  openai_failed_status e !! "reason" = Some (VStr "openai_failed").
Proof. reflexivity. Qed.

(** The log of a whole run is the log of the OpenAI part followed by what the
    Gemini part adds, and the latter holds no sleep and no OpenAI request. *)
Lemma gemini_part_adds s n t evs h prompt :
  ∃ rest,
    events (snd (gemini_part prompt (Machine s n t evs h))) = (evs ++ rest)%list
    ∧ sleeps rest = [] ∧ openai_requests rest = [].
Proof.
  rewrite gemini_part_log. eexists. split; [reflexivity|].
  destruct (client s); split; reflexivity.
Qed.

Lemma openai_requests_at_most_3 ai r t prompt :
  (length (openai_requests
             (events (snd (_generate_with_fallback prompt (boot ai r t))))) ≤ 3)%nat.
Proof.
  primary_cases ai r prompt; simpl; try lia;
    match goal with
    | |- context [gemini_part ?p (Machine ?s ?n ?t' ?evs ?h)] =>
        destruct (gemini_part_adds s n t' evs h p) as (rest & -> & _ & Hr)
    end;
    unfold openai_requests in *; rewrite omap_app, Hr; simpl; lia.
Qed.

(** C1 (the code departs from the claim). When OpenAI is configured and its
    three requests all raise, the loop sleeps after each of them, the third
    included: the log starts with request, sleep 0.5 s, request, sleep 1 s,
    request, sleep 2 s, and only then is the spinner stopped and control
    passed on to the Gemini part, which itself never sleeps. *)
Theorem C1_sleeps_after_last_attempt ai oc r t prompt :
  openai_client ai = Some oc →
  primary_exhausted r prompt →
  ∃ rest,
    events (snd (_generate_with_fallback prompt (boot ai r t)))
    = ([SpinnerStart 0 default_phases 500;
        OpenAIRequest 0 prompt; Sleep 500;
        OpenAIRequest 1 prompt; Sleep 1000;
        OpenAIRequest 2 prompt; Sleep 2000;
        SpinnerStop 0] ++ rest)%list
    ∧ sleeps rest = []
    ∧ sleeps (events (snd (_generate_with_fallback prompt (boot ai r t))))
      = [500; 1000; 2000]%N.
Proof.
  intros Ho Hx.
  destruct (primary_exhausted_inv _ _ Hx) as (e0 & e1 & e2 & H0 & H1 & H2).
  rewrite run_eq. unfold boot.
  rewrite (openai_part_exhausted _ _ _ _ _ _ _ _ _ _ Ho H0 H1 H2).
  match goal with
  | |- context [gemini_part ?p (Machine ?s ?n ?t' ?evs ?h)] =>
      destruct (gemini_part_adds s n t' evs h p) as (rest & -> & Hs & _)
  end.
  exists rest. split; [reflexivity|]. split; [exact Hs|].
  unfold sleeps in *. rewrite omap_app, Hs. reflexivity.
Qed.

Lemma C1_witness :
  ∃ rest,
    events (snd (_generate_with_fallback "ls"
                   (boot (TerminalAI_init (Some openai_key) (Some gemini_key))
                      (openai_down 3000) 0)))
    = ([SpinnerStart 0 default_phases 500;
        OpenAIRequest 0 "ls"; Sleep 500;
        OpenAIRequest 1 "ls"; Sleep 1000;
        OpenAIRequest 2 "ls"; Sleep 2000;
        SpinnerStop 0] ++ rest)%list
    ∧ sleeps rest = []
    ∧ sleeps (events (snd (_generate_with_fallback "ls"
                   (boot (TerminalAI_init (Some openai_key) (Some gemini_key))
                      (openai_down 3000) 0))))
      = [500; 1000; 2000]%N.
Proof.
  apply (C1_sleeps_after_last_attempt
           (TerminalAI_init (Some openai_key) (Some gemini_key)) openai_key
           (openai_down 3000) 0 "ls").
  - reflexivity.
  - intros k _. exists rate_limited. reflexivity.
Defined.

(** C6. With OpenAI configured: if the first request returns, the call returns
    its text without any sleep and records provider "openai", reason "ok"; if
    the first two requests raise and the third returns, the call returns its
    text after exactly two sleeps, of 0.5 s and then 1 s, and records provider
    "openai", reason "ok"; and no run sends more than three OpenAI requests. *)
Theorem C6_primary_retries ai oc r t prompt :
  openai_client ai = Some oc →
  (∀ text,
     outcome (chat_completions_create r 0 prompt) = inl text →
     fst (_generate_with_fallback prompt (boot ai r t)) = Ret text
     ∧ sleeps (events (snd (_generate_with_fallback prompt (boot ai r t)))) = []
     ∧ status_get (snd (_generate_with_fallback prompt (boot ai r t))) "provider"
       = Some (VStr "openai")
     ∧ status_get (snd (_generate_with_fallback prompt (boot ai r t))) "reason"
       = Some (VStr "ok"))
  ∧ (∀ e0 e1 text,
     outcome (chat_completions_create r 0 prompt) = inr e0 →
     outcome (chat_completions_create r 1 prompt) = inr e1 →
     outcome (chat_completions_create r 2 prompt) = inl text →
     fst (_generate_with_fallback prompt (boot ai r t)) = Ret text
     ∧ sleeps (events (snd (_generate_with_fallback prompt (boot ai r t))))
       = [500; 1000]%N
     ∧ status_get (snd (_generate_with_fallback prompt (boot ai r t))) "provider"
       = Some (VStr "openai")
     ∧ status_get (snd (_generate_with_fallback prompt (boot ai r t))) "reason"
       = Some (VStr "ok"))
  ∧ (length (openai_requests
               (events (snd (_generate_with_fallback prompt (boot ai r t))))) ≤ 3)%nat.
Proof.
  intros Ho. split; [|split].
  - intros text H0. rewrite run_eq. unfold boot.
    rewrite (openai_part_first _ _ _ _ _ _ _ _ Ho H0).
    repeat split; reflexivity.
  - intros e0 e1 text H0 H1 H2. rewrite run_eq. unfold boot.
    rewrite (openai_part_third _ _ _ _ _ _ _ _ _ _ Ho H0 H1 H2).
    repeat split; reflexivity.
  - apply openai_requests_at_most_3.
Qed.

Lemma C6_witness :
  (fst (_generate_with_fallback "ls"
          (boot (TerminalAI_init (Some openai_key) None) (openai_flaky 0) 0))
     = Ret (Some "pong")
   ∧ sleeps (events (snd (_generate_with_fallback "ls"
          (boot (TerminalAI_init (Some openai_key) None) (openai_flaky 0) 0)))) = [])
  ∧ (fst (_generate_with_fallback "ls"
          (boot (TerminalAI_init (Some openai_key) None) (openai_flaky 2) 0))
     = Ret (Some "pong")
   ∧ sleeps (events (snd (_generate_with_fallback "ls"
          (boot (TerminalAI_init (Some openai_key) None) (openai_flaky 2) 0))))
     = [500; 1000]%N).
Proof.
  split.
  - pose proof (proj1 (C6_primary_retries
                         (TerminalAI_init (Some openai_key) None) openai_key
                         (openai_flaky 0) 0 "ls" eq_refl)
                  (Some "pong") eq_refl) as (Hr & Hs & _).
    exact (conj Hr Hs).
  - pose proof (proj1 (proj2 (C6_primary_retries
                         (TerminalAI_init (Some openai_key) None) openai_key
                         (openai_flaky 2) 0 "ls" eq_refl))
                  rate_limited rate_limited (Some "pong") eq_refl eq_refl eq_refl)
      as (Hr & Hs & _).
    exact (conj Hr Hs).
Defined.

(** ** The Gemini part *)

(** When control falls through, the OpenAI part hands over an instance with
    the same clients, and has sent nothing to Gemini. *)
Lemma falls_through_openai_part ai r t prompt :
  falls_through ai r prompt →
  ∃ st t' evs h,
    openai_part prompt (boot ai r t) = (Ret None, Machine (with_status ai st) r t' evs h)
    ∧ gemini_requests evs = []
    ∧ (openai_client ai = None → st = last_status ai ∧ t' = t ∧ evs = [])
    ∧ (t ≤ t')%N.
Proof.
  intros [Ho | Hx]; unfold boot.
  - rewrite (openai_part_unconfigured _ _ _ _ _ _ Ho).
    exists (last_status ai), t, [], 0. destruct ai; simpl.
    repeat split; auto; lia.
  - destruct (openai_client ai) as [oc|] eqn:Ho.
    + destruct (primary_exhausted_inv _ _ Hx) as (e0 & e1 & e2 & H0 & H1 & H2).
      rewrite (openai_part_exhausted _ _ _ _ _ _ _ _ _ _ Ho H0 H1 H2).
      do 4 eexists. split; [reflexivity|]. split; [reflexivity|].
      split; [discriminate | lia].
    + rewrite (openai_part_unconfigured _ _ _ _ _ _ Ho).
      exists (last_status ai), t, [], 0. destruct ai; simpl.
      repeat split; auto; lia.
Qed.

(** C4 (the code departs from the claim). With Gemini configured and control
    in the Gemini part, exactly one request is submitted to Gemini, and an
    answer that comes within 7 s (after 6.9 s, say) is returned.  But the
    timeout is not a hard one, and not every other failure is reported as a
    failure.  When the request runs longer than 7 s, the call raises the
    RuntimeError "Gemini fallback timed out after 7 seconds" only once the
    request is done, so more than 7 s after it was entered.  When the
    request itself raises a [TimeoutError] within the 7 s, the handler meant
    for the timeout of the wait catches it, and the call raises the same
    "timed out after 7 seconds" error, although it waited no longer than the
    request ran.  Only an exception of another class raised in time is
    wrapped as "Gemini fallback failed: " followed by [str(e)]. *)
Theorem C4_secondary_timeout_not_hard_and_misreported ai gc r t prompt :
  client ai = Some gc →
  falls_through ai r prompt →
  gemini_requests (events (snd (_generate_with_fallback prompt (boot ai r t)))) = [prompt]
  ∧ (∀ resp,
     (took (models_generate_content r prompt) ≤ 7000)%N →
     outcome (models_generate_content r prompt) = inl resp →
     fst (_generate_with_fallback prompt (boot ai r t)) = Ret (getattr_text resp))
  ∧ ((7000 < took (models_generate_content r prompt))%N →
     fst (_generate_with_fallback prompt (boot ai r t))
     = Raise (Exn RuntimeError timeout_msg)
     ∧ PoolShutdown (took (models_generate_content r prompt) - 7000)
         ∈ events (snd (_generate_with_fallback prompt (boot ai r t)))
     ∧ (7000 < elapsed (boot ai r t)
                 (snd (_generate_with_fallback prompt (boot ai r t))))%N)
  ∧ (∀ e,
     (took (models_generate_content r prompt) ≤ 7000)%N →
     outcome (models_generate_content r prompt) = inr e →
     exn_class e = FuturesTimeoutError →
     fst (_generate_with_fallback prompt (boot ai r t))
     = Raise (Exn RuntimeError timeout_msg)
     ∧ FutureWait (took (models_generate_content r prompt))
         ∈ events (snd (_generate_with_fallback prompt (boot ai r t))))
  ∧ (∀ e,
     (took (models_generate_content r prompt) ≤ 7000)%N →
     outcome (models_generate_content r prompt) = inr e →
     exn_class e ≠ FuturesTimeoutError →
     fst (_generate_with_fallback prompt (boot ai r t))
     = Raise (Exn RuntimeError (failed_msg e))).
Proof.
  intros Hc Hf.
  destruct (falls_through_openai_part ai r t prompt Hf)
    as (st & t' & evs & h & E & Hg & _ & Ht).
  rewrite run_eq, E.
  assert (Hc' : client (with_status ai st) = Some gc) by exact Hc.
  split; [|split; [|split; [|split]]].
  - rewrite gemini_part_log, Hc'. unfold gemini_requests in *.
    rewrite omap_app, Hg. reflexivity.
  - intros resp Hd Ho. rewrite (gemini_part_returns _ _ _ _ _ _ _ _ Hc' Hd Ho).
    reflexivity.
  - intros Hd. rewrite (gemini_part_times_out _ _ _ _ _ _ _ Hc' Hd).
    split; [reflexivity|]. split.
    + simpl. rewrite elem_of_app. right. rewrite !elem_of_cons. auto 10.
    + unfold elapsed, boot. simpl. lia.
  - intros e Hd Ho He. rewrite (gemini_part_raises _ _ _ _ _ _ _ _ Hc' Hd Ho).
    rewrite He. split; [reflexivity|].
    simpl. rewrite elem_of_app. right. rewrite !elem_of_cons. auto 10.
  - intros e Hd Ho Hne. rewrite (gemini_part_raises _ _ _ _ _ _ _ _ Hc' Hd Ho).
    simpl. destruct (exn_class e); [reflexivity | contradiction | reflexivity].
Qed.

Lemma C4_witness :
  (fst (_generate_with_fallback "ls"
          (boot (TerminalAI_init None (Some gemini_key))
             (gemini_raises 150 (Exn FuturesTimeoutError "read timed out")) 0))
     = Raise (Exn RuntimeError "Gemini fallback timed out after 7 seconds")
   ∧ FutureWait 150
       ∈ events (snd (_generate_with_fallback "ls"
          (boot (TerminalAI_init None (Some gemini_key))
             (gemini_raises 150 (Exn FuturesTimeoutError "read timed out")) 0))))
  ∧ (fst (_generate_with_fallback "ls"
          (boot (TerminalAI_init (Some openai_key) (Some gemini_key))
             (openai_down 10000) 0))
     = Raise (Exn RuntimeError "Gemini fallback timed out after 7 seconds")
     ∧ PoolShutdown 3000
         ∈ events (snd (_generate_with_fallback "ls"
            (boot (TerminalAI_init (Some openai_key) (Some gemini_key))
               (openai_down 10000) 0))))
  ∧ fst (_generate_with_fallback "ls"
          (boot (TerminalAI_init None (Some gemini_key)) (openai_down 6900) 0))
     = Ret (Some "pong")
  ∧ fst (_generate_with_fallback "ls"
          (boot (TerminalAI_init None (Some gemini_key))
             (gemini_raises 300 (Exn OtherException "503")) 0))
     = Raise (Exn RuntimeError "Gemini fallback failed: 503").
Proof.
  split; [|split; [|split]].
  - pose proof (C4_secondary_timeout_not_hard_and_misreported
                  (TerminalAI_init None (Some gemini_key)) gemini_key
                  (gemini_raises 150 (Exn FuturesTimeoutError "read timed out")) 0 "ls"
                  eq_refl (or_introl eq_refl))
      as (_ & _ & _ & Hmis & _).
    apply (Hmis (Exn FuturesTimeoutError "read timed out"));
      [simpl; lia | reflexivity | reflexivity].
  - pose proof (C4_secondary_timeout_not_hard_and_misreported
                  (TerminalAI_init (Some openai_key) (Some gemini_key)) gemini_key
                  (openai_down 10000) 0 "ls" eq_refl
                  (or_intror (fun k _ => ex_intro _ rate_limited eq_refl)))
      as (_ & _ & Hto & _).
    assert (Hd : (7000 < took (models_generate_content (openai_down 10000) "ls"))%N)
      by (simpl; lia).
    destruct (Hto Hd) as (Hr & Hp & _).
    exact (conj Hr Hp).
  - pose proof (C4_secondary_timeout_not_hard_and_misreported
                  (TerminalAI_init None (Some gemini_key)) gemini_key
                  (openai_down 6900) 0 "ls" eq_refl (or_introl eq_refl))
      as (_ & Hok & _).
    apply (Hok (Response (Some (Some "pong")) "<response>")); [simpl; lia | reflexivity].
  - pose proof (C4_secondary_timeout_not_hard_and_misreported
                  (TerminalAI_init None (Some gemini_key)) gemini_key
                  (gemini_raises 300 (Exn OtherException "503")) 0 "ls"
                  eq_refl (or_introl eq_refl))
      as (_ & _ & _ & _ & Hfail).
    apply (Hfail (Exn OtherException "503")); [simpl; lia | reflexivity | discriminate].
Defined.

(** C2 (the code departs from the claim). With only Gemini configured and a
    Gemini request that runs longer than 7 s, the call does raise the timeout
    RuntimeError, but it hands control back to its caller only when the
    request is done: the wait for the result ends at 7 s, and leaving the
    [with ThreadPoolExecutor] block then joins the worker for the rest of the
    request, so the caller is blocked for the whole running time. *)
Theorem C2_caller_blocked_until_request_done ai gc r t prompt :
  openai_client ai = None →
  client ai = Some gc →
  (7000 < took (models_generate_content r prompt))%N →
  fst (_generate_with_fallback prompt (boot ai r t))
    = Raise (Exn RuntimeError timeout_msg)
  ∧ events (snd (_generate_with_fallback prompt (boot ai r t)))
    = [SpinnerStart 0 default_phases 500; GeminiSubmit prompt;
       FutureWait 7000; SpinnerStop 0;
       PoolShutdown (took (models_generate_content r prompt) - 7000)]
  ∧ elapsed (boot ai r t) (snd (_generate_with_fallback prompt (boot ai r t)))
    = took (models_generate_content r prompt)
  ∧ (7000 < elapsed (boot ai r t) (snd (_generate_with_fallback prompt (boot ai r t))))%N.
Proof.
  intros Ho Hc Hd.
  rewrite run_eq. unfold boot.
  rewrite (openai_part_unconfigured _ _ _ _ _ _ Ho).
  rewrite (gemini_part_times_out _ _ _ _ _ _ _ Hc Hd).
  unfold elapsed. simpl.
  repeat split; lia.
Qed.

Lemma C2_witness :
  fst (_generate_with_fallback "ls"
         (boot (TerminalAI_init None (Some gemini_key)) (openai_down 10000) 0))
    = Raise (Exn RuntimeError "Gemini fallback timed out after 7 seconds")
  ∧ elapsed (boot (TerminalAI_init None (Some gemini_key)) (openai_down 10000) 0)
      (snd (_generate_with_fallback "ls"
              (boot (TerminalAI_init None (Some gemini_key)) (openai_down 10000) 0)))
    = 10000%N.
Proof.
  pose proof (C2_caller_blocked_until_request_done
                (TerminalAI_init None (Some gemini_key)) gemini_key
                (openai_down 10000) 0 "ls" eq_refl eq_refl)
    as H.
  destruct H as (Hr & _ & He & _); [simpl; lia|].
  exact (conj Hr He).
Defined.

(** ** Spinner handles *)


(** ** The recorded status *)

Lemma gemini_status_is_Some st d : is_Some (gemini_status st d).
Proof.
  unfold gemini_status. destruct st as [d0|]; simpl; [|eauto].
  destruct (bool_decide (d0 = ∅)); simpl; eauto.
Qed.

Lemma gemini_status_consistent st d :
  status_consistent st → status_consistent (gemini_status st d).
Proof.
  intros Hst d' Hd' Hreason. unfold gemini_status in Hd'.
  destruct (negb (truthy st)).
  - injection Hd' as <-. discriminate Hreason.
  - destruct st as [d0|]; [|discriminate]. simpl in Hd'. injection Hd' as <-.
    rewrite lookup_insert_ne in Hreason by discriminate.
    rewrite lookup_insert_ne by discriminate.
    exact (Hst d0 eq_refl Hreason).
Qed.

Lemma openai_ok_status_consistent d : status_consistent (Some (openai_ok_status d)).
Proof. intros d' [= <-] Hreason. discriminate Hreason. Qed.

Lemma openai_failed_status_consistent e :
  status_consistent (Some (openai_failed_status e)).
Proof. intros d' [= <-] _. reflexivity. Qed.

Lemma gemini_status_after_failure_consistent e d :
  status_consistent (gemini_status (Some (openai_failed_status e)) d).
Proof. apply gemini_status_consistent, openai_failed_status_consistent. Qed.

(** A call keeps the status consistent, however it ends. *)
Lemma run_keeps_consistent ai r t prompt :
  status_consistent (last_status ai) →
  status_consistent
    (last_status (self (snd (_generate_with_fallback prompt (boot ai r t))))).
Proof.
  intros Hst.
  primary_cases ai r prompt; simpl;
    try apply openai_ok_status_consistent;
    secondary_cases ai r prompt; simpl;
    auto using openai_failed_status_consistent, gemini_status_consistent,
      gemini_status_after_failure_consistent.
Qed.

Lemma reachable_consistent ai : reachable ai → status_consistent (last_status ai).
Proof.
  induction 1 as [oc gc | ai r t prompt _ IH].
  - intros d Hd. discriminate Hd.
  - apply run_keeps_consistent, IH.
Qed.

(** C5. On an instance the code can produce, a call that returns leaves a
    status dict in which reason "openai_failed" implies provider "gemini";
    and when OpenAI is configured and one of its three requests returns, the
    call returns with provider "openai" and reason "ok". *)
Theorem C5_status_invariant ai r t prompt :
  reachable ai →
  (∀ text,
     fst (_generate_with_fallback prompt (boot ai r t)) = Ret text →
     ∃ d,
       last_status (self (snd (_generate_with_fallback prompt (boot ai r t)))) = Some d
       ∧ (d !! "reason" = Some (VStr "openai_failed") →
          d !! "provider" = Some (VStr "gemini")))
  ∧ (is_Some (openai_client ai) →
     primary_succeeds r prompt →
     (∃ text, fst (_generate_with_fallback prompt (boot ai r t)) = Ret text)
     ∧ status_get (snd (_generate_with_fallback prompt (boot ai r t))) "provider"
       = Some (VStr "openai")
     ∧ status_get (snd (_generate_with_fallback prompt (boot ai r t))) "reason"
       = Some (VStr "ok")).
Proof.
  intros Hreach. split.
  - intros text Hret.
    pose proof (run_keeps_consistent ai r t prompt (reachable_consistent _ Hreach))
      as Hcons.
    assert (Hsome : is_Some (last_status
                      (self (snd (_generate_with_fallback prompt (boot ai r t)))))).
    { revert Hret. clear Hcons.
      primary_cases ai r prompt; simpl; eauto;
        secondary_cases ai r prompt; simpl;
        auto using gemini_status_is_Some; discriminate. }
    destruct Hsome as [d Hd]. exists d. split; [exact Hd|].
    apply Hcons, Hd.
  - intros [oc Ho] (k & text & Hk & Hok).
    rewrite run_eq. unfold boot.
    destruct (outcome (chat_completions_create r 0 prompt)) as [x0|e0] eqn:H0.
    { rewrite (openai_part_first _ _ _ _ _ _ _ _ Ho H0). simpl. eauto. }
    destruct (outcome (chat_completions_create r 1 prompt)) as [x1|e1] eqn:H1.
    { rewrite (openai_part_second _ _ _ _ _ _ _ _ _ Ho H0 H1). simpl. eauto. }
    destruct (outcome (chat_completions_create r 2 prompt)) as [x2|e2] eqn:H2.
    { rewrite (openai_part_third _ _ _ _ _ _ _ _ _ _ Ho H0 H1 H2). simpl. eauto. }
    exfalso.
    destruct k as [|[|[|k]]]; [congruence | congruence | congruence | lia].
Qed.

Lemma C5_witness :
  (∃ d,
     last_status (self (snd (_generate_with_fallback "ls"
        (boot (TerminalAI_init (Some openai_key) (Some gemini_key))
           (openai_down 3000) 0)))) = Some d
     ∧ (d !! "reason" = Some (VStr "openai_failed") →
        d !! "provider" = Some (VStr "gemini")))
  ∧ status_get (snd (_generate_with_fallback "ls"
        (boot (TerminalAI_init (Some openai_key) (Some gemini_key))
           (openai_flaky 1) 0))) "provider" = Some (VStr "openai").
Proof.
  split.
  - apply (proj1 (C5_status_invariant
                    (TerminalAI_init (Some openai_key) (Some gemini_key))
                    (openai_down 3000) 0 "ls"
                    (reachable_init (Some openai_key) (Some gemini_key)))
             (Some "pong")).
    reflexivity.
  - apply (proj2 (C5_status_invariant
                    (TerminalAI_init (Some openai_key) (Some gemini_key))
                    (openai_flaky 1) 0 "ls"
                    (reachable_init (Some openai_key) (Some gemini_key)))).
    + exists openai_key. reflexivity.
    + exists 1, (Some "pong"). split; [lia | reflexivity].
Defined.

(** C10. On an instance with no OpenAI client whose [last_status] is already
    a non-empty dict, a call answered by Gemini in time only writes
    "duration_ms" into that dict: every other key, "provider" and "reason"
    among them, keeps the value it had before the call. *)
Theorem C10_stale_status_kept ai gc r t prompt d0 resp :
  openai_client ai = None →
  client ai = Some gc →
  last_status ai = Some d0 →
  d0 ≠ ∅ →
  (took (models_generate_content r prompt) ≤ 7000)%N →
  outcome (models_generate_content r prompt) = inl resp →
  fst (_generate_with_fallback prompt (boot ai r t)) = Ret (getattr_text resp)
  ∧ last_status (self (snd (_generate_with_fallback prompt (boot ai r t))))
    = Some (<["duration_ms" :=
                VInt (elapsed_ms t (t + took (models_generate_content r prompt)))]> d0)
  ∧ status_get (snd (_generate_with_fallback prompt (boot ai r t))) "provider"
    = d0 !! "provider"
  ∧ status_get (snd (_generate_with_fallback prompt (boot ai r t))) "reason"
    = d0 !! "reason"
  ∧ (∀ k, k ≠ "duration_ms" →
       status_get (snd (_generate_with_fallback prompt (boot ai r t))) k = d0 !! k).
Proof.
  intros Ho Hc Hst Hne Hd Hok.
  rewrite run_eq. unfold boot.
  rewrite (openai_part_unconfigured _ _ _ _ _ _ Ho).
  rewrite (gemini_part_returns _ _ _ _ _ _ _ _ Hc Hd Hok).
  unfold status_get, gemini_status. simpl. rewrite Hst. simpl.
  rewrite bool_decide_eq_false_2 by exact Hne. simpl.
  split; [reflexivity|]. split; [reflexivity|].
  split; [apply lookup_insert_ne; discriminate|].
  split; [apply lookup_insert_ne; discriminate|].
  intros k Hk. apply lookup_insert_ne. congruence.
Qed.

Lemma C10_witness :
  status_get (snd (_generate_with_fallback "ls" (boot used_once (openai_down 345) 100)))
    "provider" = Some (VStr "gemini")
  ∧ status_get (snd (_generate_with_fallback "ls" (boot used_once (openai_down 345) 100)))
    "reason" = Some (VStr "ok")
  ∧ last_status (self (snd (_generate_with_fallback "ls"
                              (boot used_once (openai_down 345) 100))))
    = Some (<["duration_ms" := VInt 345]>
              {[ "provider" := VStr "gemini"; "reason" := VStr "ok";
                 "duration_ms" := VInt 12 ]}).
Proof.
  pose proof (C10_stale_status_kept used_once gemini_key (openai_down 345) 100 "ls"
                {[ "provider" := VStr "gemini"; "reason" := VStr "ok";
                   "duration_ms" := VInt 12 ]}
                (Response (Some (Some "pong")) "<response>")
                eq_refl eq_refl eq_refl) as H.
  destruct H as (_ & Hst & Hp & Hr & _).
  - apply insert_non_empty.
  - simpl. lia.
  - reflexivity.
  - split; [rewrite Hp; reflexivity|]. split; [rewrite Hr; reflexivity|]. exact Hst.
Defined.

(** ** The spinner line *)

Lemma dots_lookup i : dots !! (i `mod` 3) = Some (ellipsis (i `mod` 3)).
Proof.
  assert (H : i `mod` 3 < 3) by (apply Nat.mod_upper_bound; lia).
  destruct (i `mod` 3) as [|[|[|k]]]; [reflexivity | reflexivity | reflexivity | lia].
Qed.

Lemma _spin_phase_nonempty phases i :
  phases ≠ [] →
  ∃ phase,
    phases !! ((i / 3) `mod` length phases) = Some phase
    ∧ _spin_phase phases i = Some phase.
Proof.
  intros Hne. unfold _spin_phase.
  assert (Hlen : length phases ≠ 0) by (destruct phases; [congruence | discriminate]).
  destruct (decide (length phases = 0)) as [E|_]; [contradiction|].
  destruct (lookup_lt_is_Some_2 phases ((i / 3) `mod` length phases)) as [phase Hp].
  { apply Nat.mod_upper_bound, Hlen. }
  exists phase. split; exact Hp.
Qed.

(** The claim as written has the phase change on every tick; on the default
    phases the first three ticks all show "Thinking", and the tick after them
    is the first to show "Analysing". *)
Lemma C7_counterexample :
  _spin_phase default_phases 0 = Some "Thinking"
  ∧ _spin_phase default_phases 1 = Some "Thinking"
  ∧ _spin_write default_phases 1 = Some (CR +:+ "Thinking .." +:+ spaces 10)
  ∧ _spin_write default_phases 1 ≠ Some (CR +:+ "Analysing .." +:+ spaces 10)
  ∧ _spin_phase default_phases 3 = Some "Analysing".
Proof. repeat split; try reflexivity. discriminate. Qed.

(** C7, amended. For a non-empty [phases], the line written at tick [i] is a
    carriage return, the phase label, a space, an ellipsis of [i mod 3 + 1]
    dots and ten spaces of padding, where the label is the element of
    [phases] at index [(i div 3) mod len(phases)]: the ellipsis grows with
    every tick and starts over every third, and the label stays the same
    during the three ticks [3q], [3q+1], [3q+2] and moves on to the next
    phase (cyclically) at tick [3q+3]. *)
Theorem C7_spinner_line (phases : list string) (i : nat) :
  phases ≠ [] →
  (∃ phase,
     phases !! ((i / 3) `mod` length phases) = Some phase
     ∧ _spin_write phases i
       = Some (CR +:+ (phase +:+ " " +:+ ellipsis (i `mod` 3)) +:+ spaces 10))
  ∧ (∀ q j, j < 3 → _spin_phase phases (3 * q + j) = phases !! (q `mod` length phases))
  ∧ (∀ q, _spin_phase phases (3 * q + 3) = phases !! (S q `mod` length phases)).
Proof.
  intros Hne.
  assert (Hlen : length phases ≠ 0) by (destruct phases; [congruence | discriminate]).
  assert (Hphase : ∀ q j, j < 3 →
            _spin_phase phases (3 * q + j) = phases !! (q `mod` length phases)).
  { intros q j Hj. unfold _spin_phase.
    destruct (decide (length phases = 0)) as [E|_]; [contradiction|].
    replace ((3 * q + j) / 3) with q; [reflexivity|].
    apply (Nat.div_unique _ 3 q j); lia. }
  split; [|split].
  - destruct (_spin_phase_nonempty phases i Hne) as (phase & Hp & Hs).
    exists phase. split; [exact Hp|].
    unfold _spin_write, _spin_msg. rewrite Hs, dots_lookup. reflexivity.
  - exact Hphase.
  - intros q. replace (3 * q + 3) with (3 * S q + 0) by lia.
    apply Hphase. lia.
Qed.

Lemma C7_witness :
  (∃ phase,
     default_phases !! ((4 / 3) `mod` length default_phases) = Some phase
     ∧ _spin_write default_phases 4
       = Some (CR +:+ (phase +:+ " " +:+ ellipsis (4 `mod` 3)) +:+ spaces 10))
  ∧ _spin_phase default_phases (3 * 1 + 2) = default_phases !! (1 `mod` 2).
Proof.
  pose proof (C7_spinner_line default_phases 4) as H.
  destruct H as (Hline & Hsame & _); [discriminate|].
  split; [exact Hline|].
  apply (Hsame 1 2). lia.
Defined.

(** ** More about [_generate_with_fallback] *)

(** A client that is not configured is never called: without an OpenAI
    client the log of a run holds no OpenAI request, and without a Gemini
    client it holds no submit to Gemini. *)
Theorem unconfigured_client_never_called ai r t prompt :
  (openai_client ai = None →
   openai_requests (events (snd (_generate_with_fallback prompt (boot ai r t)))) = [])
  ∧ (client ai = None →
     gemini_requests (events (snd (_generate_with_fallback prompt (boot ai r t)))) = []).
Proof.
  split.
  - intros Ho. rewrite run_eq. unfold boot.
    rewrite (openai_part_unconfigured _ _ _ _ _ _ Ho), gemini_part_log.
    destruct (client ai); reflexivity.
  - intros Hc. primary_cases ai r prompt; simpl; try reflexivity;
      rewrite gemini_part_log; simpl; rewrite Hc; reflexivity.
Qed.

Lemma unconfigured_client_never_called_witness :
  openai_requests (events (snd (_generate_with_fallback "ls"
     (boot (TerminalAI_init None (Some gemini_key)) (openai_down 20) 0)))) = []
  ∧ gemini_requests (events (snd (_generate_with_fallback "ls"
     (boot (TerminalAI_init (Some openai_key) None) (openai_down 20) 0)))) = [].
Proof.
  split.
  - apply (proj1 (unconfigured_client_never_called
                    (TerminalAI_init None (Some gemini_key)) (openai_down 20) 0 "ls")).
    reflexivity.
  - apply (proj2 (unconfigured_client_never_called
                    (TerminalAI_init (Some openai_key) None) (openai_down 20) 0 "ls")).
    reflexivity.
Defined.

(** When OpenAI is configured and one of its three requests returns, the
    call returns the text of the first request that does, has sent exactly
    the requests up to that one, never contacts Gemini and shows a single
    spinner. *)
Theorem openai_answer_skips_gemini ai oc r t prompt :
  openai_client ai = Some oc →
  primary_succeeds r prompt →
  (∃ k text,
     (k < 3)%nat
     ∧ outcome (chat_completions_create r k prompt) = inl text
     ∧ (∀ j, (j < k)%nat → ∃ e, outcome (chat_completions_create r j prompt) = inr e)
     ∧ fst (_generate_with_fallback prompt (boot ai r t)) = Ret text
     ∧ openai_requests (events (snd (_generate_with_fallback prompt (boot ai r t))))
       = seq 0 (S k))
  ∧ gemini_requests (events (snd (_generate_with_fallback prompt (boot ai r t)))) = []
  ∧ started (events (snd (_generate_with_fallback prompt (boot ai r t)))) = [0].
Proof.
  intros Ho (k & text & Hk & Hok).
  rewrite run_eq. unfold boot.
  destruct (outcome (chat_completions_create r 0 prompt)) as [x0|e0] eqn:H0.
  { rewrite (openai_part_first _ _ _ _ _ _ _ _ Ho H0). simpl.
    split; [|split; reflexivity].
    exists 0, x0. repeat split; [lia | exact H0 | intros j Hj; lia]. }
  destruct (outcome (chat_completions_create r 1 prompt)) as [x1|e1] eqn:H1.
  { rewrite (openai_part_second _ _ _ _ _ _ _ _ _ Ho H0 H1). simpl.
    split; [|split; reflexivity].
    exists 1, x1. repeat split; [lia | exact H1 |].
    intros j Hj. assert (j = 0) as -> by lia. eauto. }
  destruct (outcome (chat_completions_create r 2 prompt)) as [x2|e2] eqn:H2.
  { rewrite (openai_part_third _ _ _ _ _ _ _ _ _ _ Ho H0 H1 H2). simpl.
    split; [|split; reflexivity].
    exists 2, x2. repeat split; [lia | exact H2 |].
    intros j Hj. destruct j as [|[|j]]; [eauto | eauto | lia]. }
  exfalso. destruct k as [|[|[|k]]]; [congruence | congruence | congruence | lia].
Qed.

Lemma openai_answer_skips_gemini_witness :
  (∃ k text,
     (k < 3)%nat
     ∧ outcome (chat_completions_create (openai_flaky 1) k "ls") = inl text
     ∧ (∀ j, (j < k)%nat →
          ∃ e, outcome (chat_completions_create (openai_flaky 1) j "ls") = inr e)
     ∧ fst (_generate_with_fallback "ls"
              (boot (TerminalAI_init (Some openai_key) (Some gemini_key))
                 (openai_flaky 1) 0)) = Ret text
     ∧ openai_requests (events (snd (_generate_with_fallback "ls"
              (boot (TerminalAI_init (Some openai_key) (Some gemini_key))
                 (openai_flaky 1) 0)))) = seq 0 (S k))
  ∧ gemini_requests (events (snd (_generate_with_fallback "ls"
              (boot (TerminalAI_init (Some openai_key) (Some gemini_key))
                 (openai_flaky 1) 0)))) = []
  ∧ started (events (snd (_generate_with_fallback "ls"
              (boot (TerminalAI_init (Some openai_key) (Some gemini_key))
                 (openai_flaky 1) 0)))) = [0].
Proof.
  apply (openai_answer_skips_gemini
           (TerminalAI_init (Some openai_key) (Some gemini_key)) openai_key
           (openai_flaky 1) 0 "ls").
  - reflexivity.
  - exists 1, (Some "pong"). split; [lia | reflexivity].
Defined.

(** Every request in the log of a run, to OpenAI or to Gemini, carries the
    prompt the function was called with, unchanged; and the OpenAI requests
    are numbered 0, 1, 2 in order, at most three of them. *)
Theorem requests_carry_the_prompt ai r t prompt :
  Forall (fun e => ∀ p, request_prompt e = Some p → p = prompt)
    (events (snd (_generate_with_fallback prompt (boot ai r t))))
  ∧ openai_requests (events (snd (_generate_with_fallback prompt (boot ai r t))))
    = seq 0 (length (openai_requests
                       (events (snd (_generate_with_fallback prompt (boot ai r t))))))
  ∧ (length (openai_requests
               (events (snd (_generate_with_fallback prompt (boot ai r t))))) ≤ 3)%nat.
Proof.
  split; [|split; [|apply openai_requests_at_most_3]].
  - primary_cases ai r prompt; rewrite ?gemini_part_log; simpl;
      destruct (client ai); simpl;
      repeat (apply Forall_cons; split; [simpl; congruence|]); apply Forall_nil; exact I.
  - primary_cases ai r prompt; rewrite ?gemini_part_log; simpl;
      destruct (client ai); reflexivity.
Qed.

(** The clients of the instance are never replaced: after any run, however
    it ends, [openai_client] and [client] are what they were, and so is the
    environment. *)
Theorem clients_never_change ai r t prompt :
  openai_client (self (snd (_generate_with_fallback prompt (boot ai r t))))
    = openai_client ai
  ∧ client (self (snd (_generate_with_fallback prompt (boot ai r t)))) = client ai
  ∧ net (snd (_generate_with_fallback prompt (boot ai r t))) = r.
Proof.
  primary_cases ai r prompt; simpl; auto;
    secondary_cases ai r prompt; simpl; auto.
Qed.


(** When OpenAI answers, the [duration_ms] that is recorded is computed from
    the clock readings at the entry and at the return of the call, so it
    covers the whole call, backoff sleeps included: it is
    [int((now - start) * 1000)] in floating point for a call entered at
    [start] that returned at [now]. *)
Theorem openai_duration_is_whole_call ai oc r t prompt :
  openai_client ai = Some oc →
  primary_succeeds r prompt →
  monotonic (snd (_generate_with_fallback prompt (boot ai r t)))
  = (t + elapsed (boot ai r t) (snd (_generate_with_fallback prompt (boot ai r t))))%N
  ∧ status_get (snd (_generate_with_fallback prompt (boot ai r t))) "duration_ms"
    = Some (VInt (elapsed_ms t
                    (monotonic (snd (_generate_with_fallback prompt (boot ai r t)))))).
Proof.
  intros Ho (k & text & Hk & Hok).
  rewrite run_eq. unfold boot, elapsed, status_get.
  destruct (outcome (chat_completions_create r 0 prompt)) as [x0|e0] eqn:H0.
  { rewrite (openai_part_first _ _ _ _ _ _ _ _ Ho H0). simpl.
    split; [lia | reflexivity]. }
  destruct (outcome (chat_completions_create r 1 prompt)) as [x1|e1] eqn:H1.
  { rewrite (openai_part_second _ _ _ _ _ _ _ _ _ Ho H0 H1). simpl.
    split; [lia | reflexivity]. }
  destruct (outcome (chat_completions_create r 2 prompt)) as [x2|e2] eqn:H2.
  { rewrite (openai_part_third _ _ _ _ _ _ _ _ _ _ Ho H0 H1 H2). simpl.
    split; [lia | reflexivity]. }
  exfalso. destruct k as [|[|[|k]]]; [congruence | congruence | congruence | lia].
Qed.

Lemma openai_duration_is_whole_call_witness :
  status_get (snd (_generate_with_fallback "ls"
     (boot (TerminalAI_init (Some openai_key) None) (openai_flaky 2) 7))) "duration_ms"
  = Some (VInt 1800).
Proof.
  destruct (openai_duration_is_whole_call
              (TerminalAI_init (Some openai_key) None) openai_key (openai_flaky 2) 7 "ls")
    as (_ & Hd).
  - reflexivity.
  - exists 2, (Some "pong"). split; [lia | reflexivity].
  - rewrite Hd. reflexivity.
Defined.







(** If the Gemini request itself raises [concurrent.futures.TimeoutError]
    before the 7 s are over, the first [except] clause takes it: the call
    reports "timed out after 7 seconds" although it waited only for the
    running time of the request. *)
Theorem early_timeout_error_reported_as_timeout ai gc r t prompt e :
  openai_client ai = None →
  client ai = Some gc →
  (took (models_generate_content r prompt) ≤ 7000)%N →
  outcome (models_generate_content r prompt) = inr e →
  exn_class e = FuturesTimeoutError →
  fst (_generate_with_fallback prompt (boot ai r t))
    = Raise (Exn RuntimeError timeout_msg)
  ∧ elapsed (boot ai r t) (snd (_generate_with_fallback prompt (boot ai r t)))
    = took (models_generate_content r prompt).
Proof.
  intros Ho Hc Hd Hok Hcls.
  rewrite run_eq. unfold boot.
  rewrite (openai_part_unconfigured _ _ _ _ _ _ Ho).
  rewrite (gemini_part_raises _ _ _ _ _ _ _ _ Hc Hd Hok).
  rewrite Hcls. unfold elapsed. simpl. split; [reflexivity | lia].
Qed.

Lemma early_timeout_error_reported_as_timeout_witness :
  fst (_generate_with_fallback "ls"
         (boot (TerminalAI_init None (Some gemini_key))
            (gemini_raises 150 (Exn FuturesTimeoutError "read timed out")) 0))
    = Raise (Exn RuntimeError "Gemini fallback timed out after 7 seconds")
  ∧ elapsed (boot (TerminalAI_init None (Some gemini_key))
               (gemini_raises 150 (Exn FuturesTimeoutError "read timed out")) 0)
      (snd (_generate_with_fallback "ls"
              (boot (TerminalAI_init None (Some gemini_key))
                 (gemini_raises 150 (Exn FuturesTimeoutError "read timed out")) 0)))
    = 150%N.
Proof.
  apply (early_timeout_error_reported_as_timeout
           (TerminalAI_init None (Some gemini_key)) gemini_key
           (gemini_raises 150 (Exn FuturesTimeoutError "read timed out")) 0 "ls"
           (Exn FuturesTimeoutError "read timed out"));
    [reflexivity | reflexivity | simpl; lia | reflexivity | reflexivity].
Defined.

(** ** More about the spinner *)

Lemma length_append (s1 s2 : string) :
  String.length (s1 +:+ s2) = String.length s1 + String.length s2.
Proof. induction s1 as [|c s1 IH]; simpl; [reflexivity | rewrite IH; reflexivity]. Qed.

Lemma length_spaces n : String.length (spaces n) = n.
Proof.
  induction n as [|n IH]; [reflexivity|].
  change (spaces (S n)) with (" " +:+ spaces n).
  rewrite length_append, IH. reflexivity.
Qed.

Lemma length_ellipsis k : String.length (ellipsis k) = S k.
Proof.
  induction k as [|k IH]; [reflexivity|].
  change (ellipsis (S k)) with ("." +:+ ellipsis k).
  rewrite length_append, IH. reflexivity.
Qed.

(** The message of a tick is a phase of the list, a space and one to three
    dots. *)
Lemma _spin_msg_inv phases i msg :
  _spin_msg phases i = Some msg →
  ∃ phase,
    phase ∈ phases
    ∧ msg = phase +:+ " " +:+ ellipsis (i `mod` 3)
    ∧ String.length msg = String.length phase + 2 + i `mod` 3.
Proof.
  unfold _spin_msg, _spin_phase. rewrite dots_lookup.
  destruct (decide (length phases = 0)) as [|_]; [discriminate|].
  destruct (phases !! ((i / 3) `mod` length phases)) as [phase|] eqn:Hp; [|discriminate].
  intros [= <-]. exists phase. split; [|split; [reflexivity|]].
  - eapply list_elem_of_lookup_2, Hp.
  - rewrite !length_append, length_ellipsis. simpl. lia.
Qed.

(** The spinner repeats itself: the write of tick [i + 3 * len(phases)] is
    the write of tick [i], for any list of phases. *)
Theorem spinner_is_periodic (phases : list string) (i : nat) :
  _spin_write phases (i + 3 * length phases) = _spin_write phases i.
Proof.
  unfold _spin_write, _spin_msg, _spin_phase.
  destruct (decide (length phases = 0)) as [|Hlen]; [reflexivity|].
  replace (i + 3 * length phases) with (i + length phases * 3) by lia.
  rewrite Nat.div_add by lia.
  rewrite Nat.Div0.mod_add.
  replace (i / 3 + length phases) with (i / 3 + 1 * length phases) by lia.
  rewrite Nat.Div0.mod_add. reflexivity.
Qed.

(** No phase label leaves a trace when the next tick is drawn: if the labels
    differ in length by at most 8, the write of tick [i + 1] (its message and
    ten spaces of padding) is at least as long as the message of tick [i]
    that it overwrites. *)
Theorem next_write_covers_previous (phases : list string) (i : nat) msg msg' :
  (∀ p p', p ∈ phases → p' ∈ phases →
     (String.length p ≤ String.length p' + 8)%nat) →
  _spin_msg phases i = Some msg →
  _spin_msg phases (S i) = Some msg' →
  (String.length msg ≤ String.length (msg' +:+ spaces 10))%nat.
Proof.
  intros Hlen Hm Hm'.
  destruct (_spin_msg_inv _ _ _ Hm) as (p & Hp & _ & Hl).
  destruct (_spin_msg_inv _ _ _ Hm') as (p' & Hp' & _ & Hl').
  rewrite length_append, length_spaces, Hl, Hl'.
  pose proof (Hlen p p' Hp Hp').
  pose proof (Nat.mod_upper_bound i 3). lia.
Qed.

Lemma next_write_covers_previous_witness :
  (String.length "Thinking ..." ≤ String.length ("Analysing ." +:+ spaces 10))%nat.
Proof.
  apply (next_write_covers_previous default_phases 2 "Thinking ..." "Analysing .").
  - intros p p' Hp Hp'. unfold default_phases in *.
    apply elem_of_cons in Hp as [->|Hp]; [|apply elem_of_cons in Hp as [->|Hp];
      [|apply elem_of_nil in Hp; destruct Hp]];
    (apply elem_of_cons in Hp' as [->|Hp']; [|apply elem_of_cons in Hp' as [->|Hp'];
      [|apply elem_of_nil in Hp'; destruct Hp']]); simpl; lia.
  - reflexivity.
  - reflexivity.
Defined.

(** The clearing write wipes every line the spinner drew: if no phase label
    is longer than 66 characters, whatever a tick shows after its carriage
    return is at most 80 characters wide, and the clearing write is a
    carriage return, 80 spaces and a carriage return. *)
Theorem clear_covers_every_write (phases : list string) (i : nat) line :
  (∀ p, p ∈ phases → (String.length p ≤ 66)%nat) →
  _spin_write phases i = Some line →
  (shown_width line ≤ 80)%nat
  ∧ _spin_clear = CR +:+ spaces 80 +:+ CR
  ∧ shown_width (CR +:+ spaces 80) = 80.
Proof.
  intros Hlen Hw. unfold _spin_write in Hw.
  destruct (_spin_msg phases i) as [msg|] eqn:Hm; [|discriminate].
  assert (E : line = CR +:+ msg +:+ spaces 10) by (injection Hw as <-; reflexivity).
  destruct (_spin_msg_inv _ _ _ Hm) as (p & Hp & _ & Hl).
  pose proof (Hlen p Hp). pose proof (Nat.mod_upper_bound i 3).
  split; [|split; reflexivity].
  unfold shown_width. rewrite E.
  rewrite (length_append CR), (length_append msg), length_spaces, Hl. simpl. lia.
Qed.

Lemma clear_covers_every_write_witness :
  (shown_width (CR +:+ "Analysing ..." +:+ spaces 10) ≤ 80)%nat.
Proof.
  apply (clear_covers_every_write default_phases 5 (CR +:+ "Analysing ..." +:+ spaces 10)).
  - intros p Hp. unfold default_phases in Hp.
    apply elem_of_cons in Hp as [->|Hp]; [|apply elem_of_cons in Hp as [->|Hp];
      [|apply elem_of_nil in Hp; destruct Hp]]; simpl; lia.
  - reflexivity.
Defined.

(** Mapping a function that never fails over a range of ticks. *)
Lemma omap_seq_total {A} (f : nat → option A) (a n : nat) :
  (∀ i, is_Some (f i)) →
  length (omap f (seq a n)) = n
  ∧ ∀ i, i < n → omap f (seq a n) !! i = f (a + i).
Proof.
  intros Hf. revert a. induction n as [|n IH]; intros a.
  - split; [reflexivity | intros i Hi; lia].
  - destruct (Hf a) as [x Hx]. destruct (IH (S a)) as [Hlen Hnth].
    assert (E : omap f (seq a (S n)) = x :: omap f (seq (S a) n)).
    { change (omap f (seq a (S n)))
        with (match f a with
              | Some y => y :: omap f (seq (S a) n)
              | None => omap f (seq (S a) n)
              end).
      rewrite Hx. reflexivity. }
    rewrite E. split; [simpl; rewrite Hlen; reflexivity|].
    intros [|i] Hi.
    + rewrite Nat.add_0_r, Hx. reflexivity.
    + change ((x :: omap f (seq (S a) n)) !! S i) with (omap f (seq (S a) n) !! i).
      rewrite Hnth by lia. f_equal. lia.
Qed.

Lemma _spin_write_is_Some phases i : phases ≠ [] → is_Some (_spin_write phases i).
Proof.
  intros Hne. unfold _spin_write, _spin_msg.
  destruct (_spin_phase_nonempty phases i Hne) as (phase & _ & ->).
  rewrite dots_lookup. simpl. eauto.
Qed.

(** All a spinner thread writes. With at least one phase label, a thread
    that sees its stop event set after [ticks] passes has written one line
    per pass, the line of pass [i] being the one of tick [i], and then the
    clearing write: [ticks + 1] writes in all. With no phase label the first
    pass dies of the division by zero in [% len(phases)], which nothing
    catches: the thread writes nothing at all, not even the clearing write,
    unless it was stopped before its first pass. *)
Theorem spinner_thread_output (phases : list string) (ticks : nat) :
  (phases ≠ [] →
   length (_spin phases ticks) = S ticks
   ∧ (∀ i, i < ticks →
        is_Some (_spin_write phases i)
        ∧ _spin phases ticks !! i = _spin_write phases i)
   ∧ _spin phases ticks !! ticks = Some _spin_clear)
  ∧ (phases = [] →
     _spin phases (S ticks) = [] ∧ _spin phases 0 = [_spin_clear]).
Proof.
  split.
  - intros Hne.
    destruct (omap_seq_total (_spin_write phases) 0 ticks
                (fun i => _spin_write_is_Some phases i Hne)) as [Hlen Hnth].
    assert (E : _spin phases ticks
                = (omap (_spin_write phases) (seq 0 ticks) ++ [_spin_clear])%list).
    { unfold _spin. destruct phases; [congruence|]. reflexivity. }
    rewrite E. split; [|split].
    + rewrite length_app, Hlen. simpl. lia.
    + intros i Hi. split; [apply _spin_write_is_Some, Hne|].
      rewrite lookup_app_l by lia. apply Hnth, Hi.
    + rewrite lookup_app_r by lia. rewrite Hlen, Nat.sub_diag. reflexivity.
  - intros ->. split; reflexivity.
Qed.

Lemma spinner_thread_output_witness :
  _spin default_phases 4
  = [CR +:+ "Thinking ." +:+ spaces 10; CR +:+ "Thinking .." +:+ spaces 10;
     CR +:+ "Thinking ..." +:+ spaces 10; CR +:+ "Analysing ." +:+ spaces 10;
     _spin_clear]
  ∧ length (_spin default_phases 4) = 5
  ∧ _spin [] 4 = [].
Proof.
  split; [reflexivity|]. split.
  - apply (proj1 (spinner_thread_output default_phases 4)). discriminate.
  - apply (proj2 (spinner_thread_output [] 3)). reflexivity.
Defined.

(** ** The public methods *)

Lemma generate_or_report_eq prompt m :
  generate_or_report prompt m
  = match _generate_with_fallback prompt m with
    | (Ret text, m') => (Ret text, m')
    | (Raise e, m') => (Ret (Some (error_prefix +:+ exn_str e)), m')
    end.
Proof.
  unfold generate_or_report, try_except, ret.
  destruct (_generate_with_fallback prompt m) as [[text|e] m']; reflexivity.
Qed.


(** A run with only Gemini configured whose request outlasts the 7 s. *)
Lemma gemini_only_timeout_run ai gc r t prompt :
  openai_client ai = None →
  client ai = Some gc →
  (7000 < took (models_generate_content r prompt))%N →
  _generate_with_fallback prompt (boot ai r t)
  = (Raise (Exn RuntimeError timeout_msg),
     Machine ai r (t + took (models_generate_content r prompt))
       [SpinnerStart 0 default_phases 500; GeminiSubmit prompt;
        FutureWait 7000; SpinnerStop 0;
        PoolShutdown (took (models_generate_content r prompt) - 7000)]
       1).
Proof.
  intros Ho Hc Hd. rewrite run_eq. unfold boot.
  rewrite (openai_part_unconfigured _ _ _ _ _ _ Ho).
  rewrite (gemini_part_times_out _ _ _ _ _ _ _ Hc Hd). reflexivity.
Qed.


Lemma method_with_client ai r t prompt :
  no_clients ai = false →
  (let* ai' := get self in
   if no_clients ai' then ret (Some not_initialized_msg)
   else generate_or_report prompt)%py (boot ai r t)
  = generate_or_report prompt (boot ai r t).
Proof. intros H. unfold bind, get. simpl. rewrite H. reflexivity. Qed.

Lemma method_without_client ai r t prompt :
  no_clients ai = true →
  (let* ai' := get self in
   if no_clients ai' then ret (Some not_initialized_msg)
   else generate_or_report prompt)%py (boot ai r t)
  = (Ret (Some not_initialized_msg), boot ai r t).
Proof. intros H. unfold bind, get, ret. simpl. rewrite H. reflexivity. Qed.


(** With neither client configured, [ask_question], [debug_issue] and
    [help_command] return the "No AI client is initialized" text and do
    nothing else: no request, no spinner, no time spent, no status written. *)
Theorem public_methods_need_a_client context ai r t s eo :
  openai_client ai = None →
  client ai = None →
  ask_question context s (boot ai r t) = (Ret (Some not_initialized_msg), boot ai r t)
  ∧ debug_issue context s (boot ai r t) = (Ret (Some not_initialized_msg), boot ai r t)
  ∧ help_command context s eo (boot ai r t) = (Ret (Some not_initialized_msg), boot ai r t).
Proof.
  intros Ho Hc.
  assert (H : no_clients ai = true) by (unfold no_clients; rewrite Ho, Hc; reflexivity).
  repeat split; apply method_without_client, H.
Qed.

Lemma public_methods_need_a_client_witness :
  ask_question ∅ "why?" (boot (TerminalAI_init None None) (openai_down 5) 0)
    = (Ret (Some not_initialized_msg), boot (TerminalAI_init None None) (openai_down 5) 0)
  ∧ debug_issue ∅ "why?" (boot (TerminalAI_init None None) (openai_down 5) 0)
    = (Ret (Some not_initialized_msg), boot (TerminalAI_init None None) (openai_down 5) 0)
  ∧ help_command ∅ "why?" None (boot (TerminalAI_init None None) (openai_down 5) 0)
    = (Ret (Some not_initialized_msg), boot (TerminalAI_init None None) (openai_down 5) 0).
Proof.
  apply (public_methods_need_a_client ∅ (TerminalAI_init None None) (openai_down 5) 0
           "why?" None); reflexivity.
Defined.


(** And [None] does come back: [ask_question] hands on the [None] that
    Gemini's response has as its [text]. *)
Lemma ask_question_can_return_None :
  fst (ask_question ∅ "why?"
         (boot (TerminalAI_init None (Some gemini_key))
            (Remote (fun _ _ => Call 100 (inr rate_limited))
               (fun _ => Call 100 (inl (Response (Some None) "<response>")))) 0))
  = Ret None.
Proof. reflexivity. Qed.

(** With only Gemini configured and a Gemini request that outlasts the 7 s,
    [ask_question] returns the text "Error generating response: Gemini
    fallback timed out after 7 seconds", leaves the machine as
    [_generate_with_fallback] leaves it for the question's prompt, and
    returns only when the request is done. *)
Theorem ask_question_reports_timeout context ai gc r t question :
  openai_client ai = None →
  client ai = Some gc →
  (7000 < took (models_generate_content r (ask_prompt context question)))%N →
  fst (ask_question context question (boot ai r t))
    = Ret (Some "Error generating response: Gemini fallback timed out after 7 seconds")
  ∧ snd (ask_question context question (boot ai r t))
    = snd (_generate_with_fallback (ask_prompt context question) (boot ai r t))
  ∧ elapsed (boot ai r t) (snd (ask_question context question (boot ai r t)))
    = took (models_generate_content r (ask_prompt context question)).
Proof.
  intros Ho Hc Hd.
  assert (H : no_clients ai = false) by (unfold no_clients; rewrite Hc; reflexivity).
  unfold ask_question. rewrite (method_with_client _ _ _ _ H), generate_or_report_eq.
  rewrite (gemini_only_timeout_run _ _ _ _ _ Ho Hc Hd).
  unfold elapsed. simpl. repeat split. lia.
Qed.

Lemma ask_question_reports_timeout_witness :
  fst (ask_question ∅ "why?"
         (boot (TerminalAI_init None (Some gemini_key)) (openai_down 9000) 0))
    = Ret (Some "Error generating response: Gemini fallback timed out after 7 seconds")
  ∧ elapsed (boot (TerminalAI_init None (Some gemini_key)) (openai_down 9000) 0)
      (snd (ask_question ∅ "why?"
              (boot (TerminalAI_init None (Some gemini_key)) (openai_down 9000) 0)))
    = 9000%N.
Proof.
  pose proof (ask_question_reports_timeout ∅
                (TerminalAI_init None (Some gemini_key)) gemini_key
                (openai_down 9000) 0 "why?" eq_refl eq_refl) as H.
  destruct H as (Hr & _ & He); [simpl; lia|].
  exact (conj Hr He).
Defined.

(** ** Building the instance *)

Lemma str_truthy_Some k : str_truthy (Some k) = true ↔ k ≠ "".
Proof.
  unfold str_truthy. destruct (bool_decide_reflect (k = "")) as [->|Hne]; simpl.
  - split; [discriminate | congruence].
  - split; [intros _; exact Hne | reflexivity].
Qed.

Lemma gemini_key_none (h : host) :
  str_truthy (environ h !! "GEMINI_API_KEY") = false →
  str_truthy (environ h !! "GOOGLE_API_KEY") = false →
  GEMINI_API_KEY h = "" ∧ module_client h = None.
Proof.
  intros Hg Hk.
  assert (E : GEMINI_API_KEY h = "").
  { unfold GEMINI_API_KEY, py_or. rewrite Hg, Hk. reflexivity. }
  split; [exact E|]. unfold module_client. rewrite E. reflexivity.
Qed.

(** Which key the Gemini client gets: a non-empty GEMINI_API_KEY wins; when
    it is missing or empty the value of GOOGLE_API_KEY is taken; when both
    are missing or empty the key is the empty string and no client is built;
    and a client that is built always carries that key, which is not empty. *)
Theorem gemini_key_precedence (h : host) :
  (∀ k, environ h !! "GEMINI_API_KEY" = Some k → k ≠ "" → GEMINI_API_KEY h = k)
  ∧ (∀ k, str_truthy (environ h !! "GEMINI_API_KEY") = false →
          environ h !! "GOOGLE_API_KEY" = Some k → GEMINI_API_KEY h = k)
  ∧ (str_truthy (environ h !! "GEMINI_API_KEY") = false →
     str_truthy (environ h !! "GOOGLE_API_KEY") = false →
     GEMINI_API_KEY h = "" ∧ module_client h = None)
  ∧ (∀ c, module_client h = Some c →
          genai_api_key c = GEMINI_API_KEY h ∧ genai_api_key c ≠ "").
Proof.
  split; [|split; [|split]].
  - intros k Hk Hne. unfold GEMINI_API_KEY, py_or. rewrite Hk.
    rewrite (proj2 (str_truthy_Some k) Hne). cbv iota.
    rewrite (proj2 (str_truthy_Some k) Hne). reflexivity.
  - intros k Hg Hk. unfold GEMINI_API_KEY, py_or. rewrite Hg, Hk.
    cbv iota. destruct (str_truthy (Some k)) eqn:E; [reflexivity|]. simpl.
    unfold str_truthy in E. destruct (bool_decide_reflect (k = "")); [auto | discriminate].
  - intros Hg Hk. apply gemini_key_none; assumption.
  - intros c. unfold module_client.
    destruct (str_truthy (Some (GEMINI_API_KEY h))) eqn:E; [|discriminate].
    destruct (genai_ctor_raises h (GEMINI_API_KEY h)); [discriminate|].
    intros [= <-]. simpl. split; [reflexivity|]. apply str_truthy_Some, E.
Qed.

(** A host for the concrete runs: every library is there and no constructor
    raises; the environment is given. *)
Lemma gemini_key_precedence_witness :
  GEMINI_API_KEY (Host {[ "GEMINI_API_KEY" := "g1"; "GOOGLE_API_KEY" := "g2" ]}
                    (inl "/") (inl "Linux") true (fun _ => false) (fun _ => false))
    = "g1"
  ∧ GEMINI_API_KEY (Host {[ "GEMINI_API_KEY" := ""; "GOOGLE_API_KEY" := "g2" ]}
                      (inl "/") (inl "Linux") true (fun _ => false) (fun _ => false))
    = "g2"
  ∧ module_client (Host ∅ (inl "/") (inl "Linux") true (fun _ => false) (fun _ => false))
    = None.
Proof.
  split; [|split].
  - apply (proj1 (gemini_key_precedence
             (Host {[ "GEMINI_API_KEY" := "g1"; "GOOGLE_API_KEY" := "g2" ]}
                (inl "/") (inl "Linux") true (fun _ => false) (fun _ => false))) "g1");
      [reflexivity | discriminate].
  - apply (proj1 (proj2 (gemini_key_precedence
             (Host {[ "GEMINI_API_KEY" := ""; "GOOGLE_API_KEY" := "g2" ]}
                (inl "/") (inl "Linux") true (fun _ => false) (fun _ => false))))
             "g2"); reflexivity.
  - apply (proj1 (proj2 (proj2 (gemini_key_precedence
             (Host ∅ (inl "/") (inl "Linux") true (fun _ => false) (fun _ => false))))));
      reflexivity.
Defined.

(** An instance built on a host whose OPENAI_API_KEY, GEMINI_API_KEY and
    GOOGLE_API_KEY are all missing or empty has no client, so its
    [ask_question] returns the "not initialized" text without sending
    anything; the same holds when the keys are there but the OpenAI library
    is missing and no Gemini key is set. *)
Theorem no_keys_no_requests (h : host) r t question :
  (openai_installed h = false ∨ str_truthy (environ h !! "OPENAI_API_KEY") = false) →
  str_truthy (environ h !! "GEMINI_API_KEY") = false →
  str_truthy (environ h !! "GOOGLE_API_KEY") = false →
  openai_client (fst (TerminalAI_new h)) = None
  ∧ client (fst (TerminalAI_new h)) = None
  ∧ last_status (fst (TerminalAI_new h)) = None
  ∧ ask_question (snd (TerminalAI_new h)) question (boot (fst (TerminalAI_new h)) r t)
    = (Ret (Some not_initialized_msg), boot (fst (TerminalAI_new h)) r t).
Proof.
  intros Ho Hg Hk.
  assert (E1 : init_openai_client h = None).
  { unfold init_openai_client. destruct Ho as [-> | ->]; [reflexivity|].
    destruct (openai_installed h); reflexivity. }
  assert (E2 : module_client h = None).
  { apply (gemini_key_none h Hg Hk). }
  unfold TerminalAI_new. simpl. rewrite E1, E2.
  repeat split.
Qed.

Lemma no_keys_no_requests_witness :
  ask_question
    (snd (TerminalAI_new
            (Host {[ "USER" := "ann" ]} (inl "/home/ann") (inl "Linux") true
               (fun _ => false) (fun _ => false))))
    "why?"
    (boot (fst (TerminalAI_new
                  (Host {[ "USER" := "ann" ]} (inl "/home/ann") (inl "Linux") true
                     (fun _ => false) (fun _ => false))))
       (openai_down 5) 0)
  = (Ret (Some not_initialized_msg),
     boot (fst (TerminalAI_new
                  (Host {[ "USER" := "ann" ]} (inl "/home/ann") (inl "Linux") true
                     (fun _ => false) (fun _ => false))))
       (openai_down 5) 0).
Proof.
  apply (no_keys_no_requests
           (Host {[ "USER" := "ann" ]} (inl "/home/ann") (inl "Linux") true
              (fun _ => false) (fun _ => false))
           (openai_down 5) 0 "why?").
  - right. reflexivity.
  - reflexivity.
  - reflexivity.
Defined.

(** The system context is all or nothing: when [os.getcwd()] and the
    [uname -a] call both work, the dict has exactly the keys "cwd", "shell",
    "os" and "user", with "unknown" standing in for a missing SHELL or USER
    variable; as soon as one of the two calls raises, the dict is empty and
    every field of every prompt reads "unknown", the user and the shell
    included. *)
Theorem system_context_all_or_nothing (h : host) :
  (∀ cwd os_info,
     getcwd h = inl cwd → uname_a h = inl os_info →
     dom (_get_system_context h) = ({[ "cwd"; "shell"; "os"; "user" ]} : gset string)
     ∧ context_get (_get_system_context h) "cwd" = cwd
     ∧ context_get (_get_system_context h) "os" = os_info
     ∧ context_get (_get_system_context h) "shell"
       = default "unknown" (environ h !! "SHELL")
     ∧ context_get (_get_system_context h) "user"
       = default "unknown" (environ h !! "USER"))
  ∧ ((∃ e, getcwd h = inr e) ∨ (∃ e, uname_a h = inr e) →
     _get_system_context h = ∅
     ∧ ∀ k, context_get (_get_system_context h) k = "unknown").
Proof.
  split.
  - intros cwd os_info Hc Hu. unfold _get_system_context, context_get.
    rewrite Hc, Hu. split.
    + rewrite !dom_insert_L, dom_singleton_L. set_solver.
    + repeat split; reflexivity.
  - intros H.
    assert (E : _get_system_context h = ∅).
    { unfold _get_system_context. destruct H as [[e He] | [e He]].
      - rewrite He. reflexivity.
      - rewrite He. destruct (getcwd h); reflexivity. }
    split; [exact E|]. intros k. rewrite E. unfold context_get.
    rewrite lookup_empty. reflexivity.
Qed.

Lemma system_context_all_or_nothing_witness :
  context_get
    (_get_system_context
       (Host {[ "USER" := "ann" ]} (inl "/home/ann")
          (inr (Exn OtherException "uname: not found")) true
          (fun _ => false) (fun _ => false)))
    "user" = "unknown"
  ∧ context_get
      (_get_system_context
         (Host {[ "USER" := "ann" ]} (inl "/home/ann") (inl "Linux") true
            (fun _ => false) (fun _ => false)))
      "shell" = "unknown".
Proof.
  split.
  - apply (proj2 (system_context_all_or_nothing
             (Host {[ "USER" := "ann" ]} (inl "/home/ann")
                (inr (Exn OtherException "uname: not found")) true
                (fun _ => false) (fun _ => false)))).
    right. eexists. reflexivity.
  - pose proof (proj1 (system_context_all_or_nothing
             (Host {[ "USER" := "ann" ]} (inl "/home/ann") (inl "Linux") true
                (fun _ => false) (fun _ => false)))
             "/home/ann" "Linux" eq_refl eq_refl) as (_ & _ & _ & Hs & _).
    rewrite Hs. reflexivity.
Defined.

(** ** Running a command *)




Lemma emit_emit (xs ys : list output) (w : world) :
  emit ys (emit xs w) = emit (xs ++ ys) w.
Proof. unfold emit. simpl. rewrite app_assoc. reflexivity. Qed.

Lemma emit_nil (w : world) : emit [] w = w.
Proof. destruct w. unfold emit. simpl. rewrite app_nil_r. reflexivity. Qed.

(** [perform] in one formula. *)
Lemma perform_eq rt os w :
  perform rt os w
  = (match first_error rt os with Some e => Raise e | None => Ret tt end,
     emit (performed rt os) w).
Proof.
  revert w. induction os as [|o os IH]; intros w; simpl.
  - rewrite emit_nil. reflexivity.
  - destruct (raises rt o) as [e|].
    + rewrite emit_nil. reflexivity.
    + rewrite IH, emit_emit. reflexivity.
Qed.

Lemma performed_all rt os : first_error rt os = None → performed rt os = os.
Proof.
  induction os as [|o os IH]; simpl; [reflexivity|].
  destruct (raises rt o); [discriminate|]. intros H. rewrite IH by exact H. reflexivity.
Qed.


Lemma first_error_app rt xs ys :
  first_error rt (xs ++ ys)
  = match first_error rt xs with
    | Some e => Some e
    | None => first_error rt ys
    end.
Proof.
  induction xs as [|o xs IH]; simpl; [reflexivity|].
  destruct (raises rt o); [reflexivity | exact IH].
Qed.

Lemma first_error_prints rt (f : string → string) lines :
  first_error rt (map (fun line => Print (f line)) lines) = None.
Proof. induction lines as [|l ls IH]; simpl; [reflexivity | exact IH]. Qed.

(** Without [rich] no write of the display raises. *)
Lemma plain_display_never_raises rt stdout stderr :
  _RICH_AVAILABLE rt = false → first_error rt (show_output rt stdout stderr) = None.
Proof.
  intros Hr. unfold show_output. rewrite Hr.
  rewrite !first_error_app.
  rewrite (first_error_prints rt (fun line => "║ " +:+ line) (shown_lines stdout)).
  rewrite (first_error_prints rt (fun line => "║ " +:+ line) (shown_lines stderr)).
  reflexivity.
Qed.




(** ** The command line *)







(** The banner of the help mode is of a known shape. *)
Lemma verdict_banner_performs rt s w :
  perform rt (verdict_banner rt s) w = (Ret tt, emit (verdict_banner rt s) w).
Proof.
  unfold verdict_banner.
  destruct (contains "VERDICT: SUCCESS" s);
    [destruct (_RICH_AVAILABLE rt); reflexivity|].
  destruct (contains "VERDICT: FAILED" s);
    [destruct (_RICH_AVAILABLE rt); reflexivity|].
  simpl. rewrite emit_nil. reflexivity.
Qed.









(** Both failures of the last step happen.  With [rich], an OpenAI message
    without content ends the mode "ask" in the exception of
    [Markdown(None)]; and a Gemini error whose message holds a closing tag
    ends it in the [MarkupError] of the red print. *)
Lemma main_dies_of_an_answer_without_text :
  fst (fst (main (host_with both_keys) (runtime_with true TimeoutExpired)
              (Remote (fun _ _ => Call 100 (inl None))
                 (fun _ => Call 100 (inr rate_limited)))
              0 ["ai_helper.py"; "ask"; "why"]))
  = Crashed (markdown_error (runtime_with true TimeoutExpired)).
Proof. reflexivity. Qed.

Lemma main_dies_of_markup_in_an_error_text :
  fst (fst (main (host_with gemini_key_only) (runtime_with true TimeoutExpired)
              (gemini_raises 300 (Exn OtherException "no route to [/v1beta]"))
              0 ["ai_helper.py"; "ask"; "why"]))
  = Crashed
      (MarkupError
         "[bold red]Error generating response: Gemini fallback failed: no route to [/v1beta][/bold red]").
Proof. reflexivity. Qed.

Lemma fallback_notice_gemini rt ai d reason :
  _RICH_AVAILABLE rt = true →
  last_status ai = Some d →
  d ≠ ∅ →
  d !! "provider" = Some (VStr "gemini") →
  d !! "reason" = Some (VStr reason) →
  fallback_notice rt ai
  = Ret [ConsolePrint ("[bold magenta]⏩ Falling back to Gemini (" +:+ reason
                       +:+ ")[/bold magenta]") None].
Proof.
  intros Hr Hst Hne Hp Hre. unfold fallback_notice, truthy.
  rewrite Hr, Hst. rewrite (bool_decide_eq_false_2 _ Hne). simpl.
  rewrite (bool_decide_eq_true_2 _ Hp), Hre. reflexivity.
Qed.

Lemma fallback_notice_other rt ai d :
  last_status ai = Some d →
  d !! "provider" ≠ Some (VStr "gemini") →
  fallback_notice rt ai = Ret [].
Proof.
  intros Hst Hp. unfold fallback_notice. rewrite Hst.
  destruct (_RICH_AVAILABLE rt && truthy (Some d)); [|reflexivity].
  rewrite (bool_decide_eq_false_2 _ Hp). reflexivity.
Qed.

Lemma fallback_notice_None rt ai :
  last_status ai = None → fallback_notice rt ai = Ret [].
Proof.
  intros Hst. unfold fallback_notice. rewrite Hst. simpl.
  rewrite andb_false_r. reflexivity.
Qed.

Lemma ask_question_with_client context question ai r t :
  no_clients ai = false →
  ask_question context question (boot ai r t)
  = generate_or_report (ask_prompt context question) (boot ai r t).
Proof. apply method_with_client. Qed.

(** A run with both clients in which OpenAI's three requests raise and the
    Gemini request outlasts the 7 s. *)
Lemma exhausted_timeout_run ai oc gc r t prompt :
  openai_client ai = Some oc →
  client ai = Some gc →
  primary_exhausted r prompt →
  (7000 < took (models_generate_content r prompt))%N →
  ∃ e2 m,
    _generate_with_fallback prompt (boot ai r t)
    = (Raise (Exn RuntimeError timeout_msg), m)
    ∧ last_status (self m) = Some (openai_failed_status e2).
Proof.
  intros Ho Hc Hx Hd.
  destruct (primary_exhausted_inv _ _ Hx) as (e0 & e1 & e2 & H0 & H1 & H2).
  rewrite run_eq. unfold boot.
  rewrite (openai_part_exhausted _ _ _ _ _ _ _ _ _ _ Ho H0 H1 H2).
  assert (Hc' : client (with_status ai (Some (openai_failed_status e2))) = Some gc)
    by exact Hc.
  rewrite (gemini_part_times_out _ _ _ _ _ _ _ Hc' Hd).
  exists e2. eexists. split; reflexivity.
Qed.

(** The notice about the fallback is printed even when the call failed:
    in the mode "ask", with [rich], both clients configured, three failing
    OpenAI requests and a Gemini request that outlasts the 7 s, the program
    prints "Falling back to Gemini (openai_failed)" and then, in red, "Error
    generating response: Gemini fallback timed out after 7 seconds", and
    finishes normally. *)
Theorem notice_printed_although_call_failed h rt r t script a args oc gc :
  _RICH_AVAILABLE rt = true →
  init_openai_client h = Some oc →
  module_client h = Some gc →
  primary_exhausted r (ask_prompt (_get_system_context h) (join_args (a :: args))) →
  (7000 < took (models_generate_content r
                  (ask_prompt (_get_system_context h) (join_args (a :: args)))))%N →
  fst (main h rt r t (script :: "ask" :: a :: args))
  = (Finished,
     [ConsolePrint "[bold magenta]⏩ Falling back to Gemini (openai_failed)[/bold magenta]"
        None;
      ConsolePrint
        "[bold red]Error generating response: Gemini fallback timed out after 7 seconds[/bold red]"
        None]).
Proof.
  intros Hr Ho Hc Hx Hd.
  unfold main. cbv zeta. cbn [mach written].
  change (bool_decide ("ask" = "ask")) with true. cbv iota.
  assert (Hn : no_clients (fst (TerminalAI_new h)) = false).
  { unfold no_clients, TerminalAI_new. simpl. rewrite Hc. reflexivity. }
  rewrite (ask_question_with_client _ _ _ _ _ Hn), generate_or_report_eq.
  destruct (exhausted_timeout_run (fst (TerminalAI_new h)) oc gc r t
              (ask_prompt (snd (TerminalAI_new h)) (join_args (a :: args))))
    as (e2 & m & -> & Hm); try assumption.
  unfold finish_answer. cbn [mach written].
  rewrite (fallback_notice_gemini rt (self m) _ "openai_failed" Hr Hm).
  - unfold render. rewrite Hr. reflexivity.
  - apply insert_non_empty.
  - reflexivity.
  - reflexivity.
Qed.

Lemma notice_printed_although_call_failed_witness :
  fst (main (host_with both_keys) (runtime_with true TimeoutExpired)
         (openai_down 9000) 0 ["ai_helper.py"; "ask"; "why"; "not"])
  = (Finished,
     [ConsolePrint "[bold magenta]⏩ Falling back to Gemini (openai_failed)[/bold magenta]"
        None;
      ConsolePrint
        "[bold red]Error generating response: Gemini fallback timed out after 7 seconds[/bold red]"
        None]).
Proof.
  apply (notice_printed_although_call_failed
           (host_with both_keys) (runtime_with true TimeoutExpired)
           (openai_down 9000) 0 "ai_helper.py" "why" ["not"]
           {| openai_api_key := "sk-test" |} {| genai_api_key := "g-test" |}).
  - reflexivity.
  - reflexivity.
  - reflexivity.
  - intros k _. exists rate_limited. reflexivity.
  - simpl. lia.
Defined.

(** A run with only Gemini configured, on a fresh instance, whose request
    returns in time. *)
Lemma gemini_only_answer_run ai gc r t prompt resp :
  openai_client ai = None →
  client ai = Some gc →
  last_status ai = None →
  (took (models_generate_content r prompt) ≤ 7000)%N →
  outcome (models_generate_content r prompt) = inl resp →
  ∃ m,
    _generate_with_fallback prompt (boot ai r t) = (Ret (getattr_text resp), m)
    ∧ last_status (self m)
      = Some {[ "provider" := VStr "gemini"; "reason" := VStr "ok";
                "duration_ms" :=
                  VInt (elapsed_ms t (t + took (models_generate_content r prompt))) ]}.
Proof.
  intros Ho Hc Hst Hd Hok.
  rewrite run_eq. unfold boot.
  rewrite (openai_part_unconfigured _ _ _ _ _ _ Ho).
  rewrite (gemini_part_returns _ _ _ _ _ _ _ _ Hc Hd Hok).
  eexists. split; [reflexivity|].
  unfold gemini_status. simpl. rewrite Hst. reflexivity.
Qed.

(** With only a Gemini key, every answer is announced as a fallback: in the
    mode "ask", with [rich], no OpenAI client and a Gemini answer in time
    whose text is a string that does not start with the error marker, the
    program prints "Falling back to Gemini (ok)" and then the answer as
    Markdown. *)
Theorem gemini_only_is_announced_as_fallback h rt r t script a args gc resp text :
  _RICH_AVAILABLE rt = true →
  init_openai_client h = None →
  module_client h = Some gc →
  (took (models_generate_content r
           (ask_prompt (_get_system_context h) (join_args (a :: args)))) ≤ 7000)%N →
  outcome (models_generate_content r
             (ask_prompt (_get_system_context h) (join_args (a :: args)))) = inl resp →
  getattr_text resp = Some text →
  String.prefix error_marker text = false →
  fst (main h rt r t (script :: "ask" :: a :: args))
  = (Finished,
     [ConsolePrint "[bold magenta]⏩ Falling back to Gemini (ok)[/bold magenta]" None;
      ConsoleMarkdown text]).
Proof.
  intros Hr Ho Hc Hd Hok Htext Hpre.
  unfold main. cbv zeta. cbn [mach written].
  change (bool_decide ("ask" = "ask")) with true. cbv iota.
  assert (Hn : no_clients (fst (TerminalAI_new h)) = false).
  { unfold no_clients, TerminalAI_new. simpl. rewrite Hc. reflexivity. }
  rewrite (ask_question_with_client _ _ _ _ _ Hn), generate_or_report_eq.
  destruct (gemini_only_answer_run (fst (TerminalAI_new h)) gc r t
              (ask_prompt (snd (TerminalAI_new h)) (join_args (a :: args))) resp)
    as (m & -> & Hm); try assumption; try reflexivity.
  unfold finish_answer. cbn [mach written].
  rewrite (fallback_notice_gemini rt (self m) _ "ok" Hr Hm).
  - rewrite Htext. unfold render. rewrite Hr, Hpre. reflexivity.
  - apply insert_non_empty.
  - reflexivity.
  - reflexivity.
Qed.

Lemma gemini_only_is_announced_as_fallback_witness :
  fst (main (host_with gemini_key_only) (runtime_with true TimeoutExpired)
         (openai_down 800) 0 ["ai_helper.py"; "ask"; "why"])
  = (Finished,
     [ConsolePrint "[bold magenta]⏩ Falling back to Gemini (ok)[/bold magenta]" None;
      ConsoleMarkdown "pong"]).
Proof.
  apply (gemini_only_is_announced_as_fallback
           (host_with gemini_key_only) (runtime_with true TimeoutExpired)
           (openai_down 800) 0 "ai_helper.py" "why" []
           {| genai_api_key := "g-test" |} (Response (Some (Some "pong")) "<response>")
           "pong").
  - reflexivity.
  - reflexivity.
  - reflexivity.
  - simpl. lia.
  - reflexivity.
  - reflexivity.
  - reflexivity.
Defined.

(** Without any client the program does not report an error in the usual
    way: in the modes "ask" and "debug" the "not initialized" text is
    rendered like an answer (as Markdown with [rich], since it does not
    start with the error marker), in the mode "help" the command is not run
    and the same text, which stripping leaves as it is, is rendered; and
    the program finishes normally in all three. *)
Theorem main_without_clients h rt r t script a args :
  init_openai_client h = None →
  module_client h = None →
  String.prefix error_marker not_initialized_msg = false
  ∧ fst (main h rt r t (script :: "ask" :: a :: args))
    = (Finished,
       [if _RICH_AVAILABLE rt then ConsoleMarkdown not_initialized_msg
        else Print not_initialized_msg])
  ∧ fst (main h rt r t (script :: "debug" :: a :: args))
    = (Finished,
       [if _RICH_AVAILABLE rt then ConsoleMarkdown not_initialized_msg
        else Print not_initialized_msg])
  ∧ fst (main h rt r t (script :: "help" :: a :: args))
    = (Finished,
       [if _RICH_AVAILABLE rt then ConsoleMarkdown (py_strip not_initialized_msg)
        else Print (py_strip not_initialized_msg)])
  ∧ py_strip not_initialized_msg = not_initialized_msg
  ∧ shell_runs (snd (fst (main h rt r t (script :: "help" :: a :: args)))) = [].
Proof.
  intros Ho Hc.
  assert (Hn : no_clients (fst (TerminalAI_new h)) = true).
  { unfold no_clients, TerminalAI_new. simpl. rewrite Ho, Hc. reflexivity. }
  assert (Hask : ∀ q, ask_question (snd (TerminalAI_new h)) q
                        (boot (fst (TerminalAI_new h)) r t)
                      = (Ret (Some not_initialized_msg),
                         boot (fst (TerminalAI_new h)) r t))
    by (intros q; apply method_without_client, Hn).
  assert (Hdbg : ∀ q, debug_issue (snd (TerminalAI_new h)) q
                        (boot (fst (TerminalAI_new h)) r t)
                      = (Ret (Some not_initialized_msg),
                         boot (fst (TerminalAI_new h)) r t))
    by (intros q; apply method_without_client, Hn).
  assert (Hhelp : fst (main h rt r t (script :: "help" :: a :: args))
                  = (Finished,
                     [if _RICH_AVAILABLE rt
                      then ConsoleMarkdown (py_strip not_initialized_msg)
                      else Print (py_strip not_initialized_msg)])).
  { unfold main. cbv zeta. cbn [mach written].
    change (bool_decide ("help" = "ask")) with false.
    change (bool_decide ("help" = "debug")) with false.
    change (bool_decide ("help" = "help")) with true. cbv iota.
    unfold execute_and_analyze. cbn [mach written self boot]. rewrite Hn.
    unfold finish_help. cbn [mach written self boot].
    rewrite fallback_notice_None by reflexivity.
    unfold render. destruct (_RICH_AVAILABLE rt); reflexivity. }
  split; [reflexivity|]. split; [|split; [|split; [|split]]].
  - unfold main. cbv zeta. cbn [mach written].
    change (bool_decide ("ask" = "ask")) with true. cbv iota.
    rewrite Hask. unfold finish_answer. cbn [mach written self boot].
    rewrite fallback_notice_None by reflexivity.
    unfold render. destruct (_RICH_AVAILABLE rt); reflexivity.
  - unfold main. cbv zeta. cbn [mach written].
    change (bool_decide ("debug" = "ask")) with false.
    change (bool_decide ("debug" = "debug")) with true. cbv iota.
    rewrite Hdbg. unfold finish_answer. cbn [mach written self boot].
    rewrite fallback_notice_None by reflexivity.
    unfold render. destruct (_RICH_AVAILABLE rt); reflexivity.
  - exact Hhelp.
  - reflexivity.
  - rewrite Hhelp. simpl. destruct (_RICH_AVAILABLE rt); reflexivity.
Qed.

Lemma main_without_clients_witness :
  fst (main (host_with ∅) (runtime_with true TimeoutExpired) (openai_down 5) 0
         ["ai_helper.py"; "help"; "rm"; "-rf"; "build"])
    = (Finished, [ConsoleMarkdown not_initialized_msg])
  ∧ shell_runs (snd (fst (main (host_with ∅) (runtime_with true TimeoutExpired)
                            (openai_down 5) 0
                            ["ai_helper.py"; "help"; "rm"; "-rf"; "build"]))) = [].
Proof.
  pose proof (main_without_clients (host_with ∅) (runtime_with true TimeoutExpired)
                (openai_down 5) 0 "ai_helper.py" "rm" ["-rf"; "build"]
                eq_refl eq_refl) as (_ & _ & _ & Hh & _ & Hs).
  split; [rewrite Hh; reflexivity | exact Hs].
Defined.

(** A run on an instance with an OpenAI client whose first request
    returns. *)
Lemma openai_first_answer_run ai oc r t prompt text :
  openai_client ai = Some oc →
  outcome (chat_completions_create r 0 prompt) = inl text →
  ∃ m,
    _generate_with_fallback prompt (boot ai r t) = (Ret text, m)
    ∧ last_status (self m)
      = Some (openai_ok_status
                (elapsed_ms t (t + took (chat_completions_create r 0 prompt)))).
Proof.
  intros Ho H0. rewrite run_eq. unfold boot.
  rewrite (openai_part_first _ _ _ _ _ _ _ _ Ho H0).
  eexists. split; reflexivity.
Qed.

Lemma execute_completed h rt context command ai r t wd rc out err :
  no_clients ai = false →
  getcwd h = inl wd →
  subprocess_run rt command (default wd (context !! "cwd")) = Completed rc out err →
  first_error rt (show_output rt out err) = None →
  execute_and_analyze h rt context command (World (boot ai r t) [])
  = match _generate_with_fallback
            (analysis_prompt context command (status_word rc) rc out err)
            (boot ai r t) with
    | (Ret analysis, m') =>
        (Ret analysis,
         World m' ([Print (prompt_line h wd command);
                    ShellRun command (default wd (context !! "cwd"))]
                   ++ show_output rt out err ++ [Print ""; Flush]))
    | (Raise e, m') =>
        (Ret (Some (analysis_error_prefix +:+ exn_str e)),
         World m' ([Print (prompt_line h wd command);
                    ShellRun command (default wd (context !! "cwd"))]
                   ++ show_output rt out err ++ [Print ""; Flush]))
    end.
Proof.
  intros Hn Hwd Hp Hshow. unfold execute_and_analyze. cbn [mach written self boot emit].
  rewrite Hn, Hwd. cbv zeta. cbn [mach written emit]. rewrite Hp.
  rewrite perform_eq, Hshow, (performed_all _ _ Hshow).
  unfold status_word. cbn [mach written emit].
  destruct (_generate_with_fallback _ (boot ai r t)) as [[analysis|e] m'];
    simpl; rewrite <- ?app_assoc; reflexivity.
Qed.

Lemma render_Some rt s w :
  raises rt (answer_write rt s) = None →
  finish (render rt (Some s) w) = (Finished, emit [answer_write rt s] w).
Proof.
  unfold render, answer_write.
  destruct (_RICH_AVAILABLE rt); [destruct (String.prefix error_marker s)|];
    intros H; cbn [perform]; rewrite ?H; reflexivity.
Qed.

(** In the mode "help" a failure of the providers is not shown as an error:
    with [rich], only Gemini configured, a command that finishes and whose
    output [rich] can display, and a Gemini request that outlasts the 7 s,
    the program shows the command and its output and then renders "Error
    generating AI analysis: Gemini fallback timed out after 7 seconds" as
    Markdown, like an answer, and finishes normally (the red rendering is
    kept for texts that start with "Error generating response:"). *)
Theorem help_failure_is_rendered_as_answer h rt r t script a args gc wd rc out err :
  _RICH_AVAILABLE rt = true →
  init_openai_client h = None →
  module_client h = Some gc →
  getcwd h = inl wd →
  subprocess_run rt (join_args (a :: args))
    (default wd (_get_system_context h !! "cwd")) = Completed rc out err →
  first_error rt (show_output rt out err) = None →
  (7000 < took (models_generate_content r
                  (analysis_prompt (_get_system_context h) (join_args (a :: args))
                     (status_word rc) rc out err)))%N →
  fst (main h rt r t (script :: "help" :: a :: args))
  = (Finished,
     ([Print (prompt_line h wd (join_args (a :: args)));
       ShellRun (join_args (a :: args)) (default wd (_get_system_context h !! "cwd"))]
      ++ show_output rt out err
      ++ [Print ""; Flush;
          ConsoleMarkdown
            "Error generating AI analysis: Gemini fallback timed out after 7 seconds"])%list).
Proof.
  intros Hr Ho Hc Hwd Hp Hshow Hd.
  unfold main. cbv zeta. cbn [mach written].
  change (bool_decide ("help" = "ask")) with false.
  change (bool_decide ("help" = "debug")) with false.
  change (bool_decide ("help" = "help")) with true. cbv iota.
  assert (Hn : no_clients (fst (TerminalAI_new h)) = false).
  { unfold no_clients, TerminalAI_new. simpl. rewrite Hc. reflexivity. }
  change (snd (TerminalAI_new h)) with (_get_system_context h).
  rewrite (execute_completed h rt _ _ _ r t wd rc out err Hn Hwd Hp Hshow).
  rewrite (gemini_only_timeout_run (fst (TerminalAI_new h)) gc r t _ Ho Hc Hd).
  unfold finish_help. cbn [mach written self exn_str].
  rewrite fallback_notice_None by reflexivity.
  cbn [perform].
  change (String.prefix error_marker (analysis_error_prefix +:+ timeout_msg)) with false.
  cbv iota. cbn [negb].
  change (verdict_banner rt (analysis_error_prefix +:+ timeout_msg)) with (@nil output).
  cbn [perform].
  change (py_strip
            (str_remove "VERDICT: FAILED"
               (str_remove "VERDICT: SUCCESS" (analysis_error_prefix +:+ timeout_msg))))
    with "Error generating AI analysis: Gemini fallback timed out after 7 seconds".
  rewrite render_Some by (unfold answer_write; rewrite Hr; reflexivity).
  unfold answer_write. rewrite Hr.
  change (String.prefix error_marker
            "Error generating AI analysis: Gemini fallback timed out after 7 seconds")
    with false.
  cbv iota. unfold emit. cbn [mach written fst].
  rewrite <- !app_assoc. reflexivity.
Qed.

Lemma help_failure_is_rendered_as_answer_witness :
  fst (main (host_with gemini_key_only) (runtime_with true (Completed 0 "a.txt" ""))
         (openai_down 9000) 0 ["ai_helper.py"; "help"; "ls"])
  = (Finished,
     ([Print "user@MacBook-Pro proj % ls"; ShellRun "ls" "/home/ann/proj"]
      ++ show_output (runtime_with true (Completed 0 "a.txt" "")) "a.txt" ""
      ++ [Print ""; Flush;
          ConsoleMarkdown
            "Error generating AI analysis: Gemini fallback timed out after 7 seconds"])%list).
Proof.
  apply (help_failure_is_rendered_as_answer
           (host_with gemini_key_only) (runtime_with true (Completed 0 "a.txt" ""))
           (openai_down 9000) 0 "ai_helper.py" "ls" []
           {| genai_api_key := "g-test" |} "/home/ann/proj" 0%Z "a.txt" "").
  - reflexivity.
  - reflexivity.
  - reflexivity.
  - reflexivity.
  - reflexivity.
  - reflexivity.
  - simpl. lia.
Defined.


(** The banner of the mode "help" follows the answer, not the return code:
    when the command has finished, with any return code, its output could
    be displayed, and the first OpenAI request returns a text that contains
    "VERDICT: SUCCESS" (and does not start with the error marker), the
    program shows the command and its output, prints the success banner,
    and shows the answer with the verdict markers cut out and stripped,
    provided that last write does not raise; no fallback notice appears. *)
Theorem banner_follows_the_answer h rt r t script a args oc wd rc out err text :
  init_openai_client h = Some oc →
  getcwd h = inl wd →
  subprocess_run rt (join_args (a :: args))
    (default wd (_get_system_context h !! "cwd")) = Completed rc out err →
  first_error rt (show_output rt out err) = None →
  outcome (chat_completions_create r 0
             (analysis_prompt (_get_system_context h) (join_args (a :: args))
                (status_word rc) rc out err)) = inl (Some text) →
  contains "VERDICT: SUCCESS" text = true →
  String.prefix error_marker text = false →
  raises rt (answer_write rt
               (py_strip (str_remove "VERDICT: FAILED"
                            (str_remove "VERDICT: SUCCESS" text)))) = None →
  fst (main h rt r t (script :: "help" :: a :: args))
  = (Finished,
     ([Print (prompt_line h wd (join_args (a :: args)));
       ShellRun (join_args (a :: args)) (default wd (_get_system_context h !! "cwd"))]
      ++ show_output rt out err
      ++ [Print ""; Flush]
      ++ [if _RICH_AVAILABLE rt
          then ConsolePrint "✅ [bold green]Command executed successfully![/bold green]"
                 None
          else Print "✅ Command executed successfully!"]
      ++ [answer_write rt
            (py_strip (str_remove "VERDICT: FAILED"
                         (str_remove "VERDICT: SUCCESS" text)))])%list).
Proof.
  intros Ho Hwd Hp Hshow H0 Hv Hpre Hlast.
  unfold main. cbv zeta. cbn [mach written].
  change (bool_decide ("help" = "ask")) with false.
  change (bool_decide ("help" = "debug")) with false.
  change (bool_decide ("help" = "help")) with true. cbv iota.
  assert (Hn : no_clients (fst (TerminalAI_new h)) = false).
  { unfold no_clients, TerminalAI_new. simpl. rewrite Ho.
    destruct (module_client h); reflexivity. }
  change (snd (TerminalAI_new h)) with (_get_system_context h).
  rewrite (execute_completed h rt _ _ _ r t wd rc out err Hn Hwd Hp Hshow).
  destruct (openai_first_answer_run (fst (TerminalAI_new h)) oc r t _ _ Ho H0)
    as (m & -> & Hm).
  unfold finish_help. cbn [mach written self].
  rewrite (fallback_notice_other rt (self m) _ Hm) by (rewrite openai_ok_status_provider; discriminate).
  cbn [perform]. rewrite Hpre. cbn [negb]. cbv zeta.
  rewrite verdict_banner_performs, (render_Some _ _ _ Hlast).
  unfold verdict_banner. rewrite Hv.
  unfold emit. cbn [mach written fst].
  rewrite <- !app_assoc. reflexivity.
Qed.

(** OpenAI answers "Looks fine. VERDICT: SUCCESS" and a line break to every
    request, after a command that ended with return code 2. *)
Lemma banner_follows_the_answer_witness :
  fst (main (host_with both_keys) (runtime_with false (Completed 2 "" "ls: nope"))
         (Remote (fun _ _ => Call 100 (inl (Some ("Looks fine. VERDICT: SUCCESS" +:+ LF))))
                 (fun _ => Call 100 (inl (Response None "<response>"))))
         0 ["ai_helper.py"; "help"; "ls"; "nope"])
  = (Finished,
     ([Print "user@MacBook-Pro proj % ls nope"; ShellRun "ls nope" "/home/ann/proj"]
      ++ show_output (runtime_with false (Completed 2 "" "ls: nope")) "" "ls: nope"
      ++ [Print ""; Flush; Print "✅ Command executed successfully!";
          Print "Looks fine."])%list).
Proof.
  apply (banner_follows_the_answer
           (host_with both_keys) (runtime_with false (Completed 2 "" "ls: nope"))
           (Remote (fun _ _ => Call 100 (inl (Some ("Looks fine. VERDICT: SUCCESS" +:+ LF))))
                   (fun _ => Call 100 (inl (Response None "<response>"))))
           0 "ai_helper.py" "ls" ["nope"]
           {| openai_api_key := "sk-test" |} "/home/ann/proj" 2%Z "" "ls: nope"
           ("Looks fine. VERDICT: SUCCESS" +:+ LF));
    reflexivity.
Defined.
